(** * ethserver: the Ethereum JSON-RPC facade of fabric-chaincode-evm

    A shallow embedding of [src/ethserver/server.go] and the properties of
    its request translation and receipt reconstruction.

    Go values are modelled as follows.
    - [string] is a sequence of bytes: Rocq's [string] (a list of 8-bit
      characters).  [[]byte] is [list byte]; the conversions [string(b)] and
      [[]byte(s)] are [string_of_list_byte] and [list_byte_of_string].
    - a pointer or slice that the code compares with [nil] is an [option].
    - [error] is its message; a nil error is [None].
    - a run-time panic is an outcome of its own, next to a normal return. *)

From Stdlib Require Import Bool Arith NArith List String Ascii Lia.
From Stdlib.Strings Require Import Byte.
From Stdlib Require Import DecimalString DecimalN.
Import ListNotations.

Local Open Scope string_scope.
Local Open Scope list_scope.

(** ** Package [strings] of the Go library (the part the server uses) *)

Module GoStrings.

(** [s[n:]] *)
Fixpoint slice_from (n : nat) (s : string) : string :=
  match n, s with
  | 0, _ => s
  | S _, EmptyString => EmptyString
  | S n', String _ s' => slice_from n' s'
  end.

(** [s[:n]] *)
Fixpoint slice_to (n : nat) (s : string) : string :=
  match n, s with
  | 0, _ => EmptyString
  | S _, EmptyString => EmptyString
  | S n', String c s' => String c (slice_to n' s')
  end.

(** [strings.Index]: the index of the first instance of [substr] in [s];
    [None] stands for Go's [-1]. *)
Fixpoint Index (s substr : string) : option nat :=
  if String.prefix substr s then Some 0
  else match s with
       | EmptyString => None
       | String _ s' => option_map S (Index s' substr)
       end.

(** [strings.Count], for a non-empty [substr]: the loop
    [for { i := Index(s, substr); if i == -1 { return n }; n++;
           s = s[i+len(substr):] }].
    Every turn shortens [s], so [length s] turns are enough. *)
Fixpoint Count_loop (turns : nat) (s substr : string) : nat :=
  match turns with
  | 0 => 0
  | S turns' =>
      match Index s substr with
      | None => 0
      | Some i =>
          S (Count_loop turns' (slice_from (i + String.length substr) s) substr)
      end
  end.

Definition Count (s substr : string) : nat :=
  Count_loop (String.length s) s substr.

(** The loop of [strings.genSplit] with [sepSave = 0]:
    [for i < n { m := Index(s, sep); if m < 0 { break };
                 a[i] = s[:m]; s = s[m+len(sep):]; i++ }; a[i] = s].
    The argument [n] is the number of turns left. *)
Fixpoint genSplit_loop (n : nat) (s sep : string) : list string :=
  match n with
  | 0 => [s]
  | S n' =>
      match Index s sep with
      | None => [s]
      | Some m =>
          slice_to m s :: genSplit_loop n' (slice_from (m + String.length sep) s) sep
      end
  end.

(** [strings.Split(s, sep)] for a non-empty [sep]: [genSplit(s, sep, 0, -1)],
    which sets [n = Count(s, sep) + 1] and runs the loop [n - 1] times. *)
Definition Split (s sep : string) : list string :=
  genSplit_loop (Count s sep) s sep.

End GoStrings.

(** ** [Strip0xFromHex] *)

(** [stripped[len(stripped)-1]]; [Split] never returns an empty slice (see
    [Split_nonempty]), so the default of [nth] is never taken. *)
Definition Strip0xFromHex (addr : string) : string :=
  let stripped := GoStrings.Split addr "0x" in
  nth (List.length stripped - 1) stripped EmptyString.

(** The last piece of the split of [s] when the count is taken with [turns]
    turns; [Strip0xFromHex s] is [last_piece (String.length s) s]. *)
Definition last_piece (turns : nat) (s : string) : string :=
  let l := GoStrings.genSplit_loop (GoStrings.Count_loop turns s "0x") s "0x" in
  nth (List.length l - 1) l EmptyString.

(** An occurrence of the literal "0x" at index [i] of [s]. *)
Definition occurs_0x_at (i : nat) (s : string) : Prop :=
  String.get i s = Some "0"%char /\ String.get (S i) s = Some "x"%char.

(** [i] is the index of the last occurrence of "0x" in [s]. *)
Definition last_0x_at (i : nat) (s : string) : Prop :=
  occurs_0x_at i s /\ forall j, occurs_0x_at j s -> j <= i.

(** ** Package [encoding/hex] of the Go library *)

Module GoHex.

Definition hextable : string := "0123456789abcdef".

Definition hexdigit (n : N) : ascii :=
  match String.get (N.to_nat n) hextable with
  | Some c => c
  | None => "0"%char
  end.

(** [hex.EncodeToString]: each byte [v] gives [hextable[v>>4]] and
    [hextable[v&0x0f]]. *)
Fixpoint EncodeToString (src : list byte) : string :=
  match src with
  | [] => EmptyString
  | v :: src' =>
      String (hexdigit (N.shiftr (Byte.to_N v) 4))
        (String (hexdigit (N.land (Byte.to_N v) 15)) (EncodeToString src'))
  end.

(** [fromHexChar]: the value of a hexadecimal digit, in either case. *)
Definition fromHexChar (c : ascii) : option N :=
  let n := N_of_ascii c in
  if (48 <=? n)%N && (n <=? 57)%N then Some (n - 48)%N
  else if (97 <=? n)%N && (n <=? 102)%N then Some (n - 97 + 10)%N
  else if (65 <=? n)%N && (n <=? 70)%N then Some (n - 65 + 10)%N
  else None.

Definition byte_of_nibbles (a b : N) : byte :=
  match Byte.of_N (N.lor (N.shiftl a 4) b) with
  | Some v => v
  | None => x00
  end.

Definition ErrLength : string := "encoding/hex: odd length hex string".
Definition upper_hextable : string := "0123456789ABCDEF".

Definition upper_hexdigit (n : N) : ascii :=
  match String.get (N.to_nat n) upper_hextable with
  | Some c => c
  | None => "0"%char
  end.

(** [strconv.IsPrint], for a rune below 256. *)
Definition IsPrint (n : N) : bool :=
  ((32 <=? n)%N && (n <=? 126)%N)
  || ((161 <=? n)%N && (n <=? 255)%N && negb (n =? 173)%N).

(** The UTF-8 encoding of a rune below 256. *)
Definition utf8 (n : N) : string :=
  if (n <? 128)%N then String (ascii_of_N n) EmptyString
  else String (ascii_of_N (192 + n / 64))
         (String (ascii_of_N (128 + n mod 64)) EmptyString).

(** [InvalidByteError(c).Error()]: the byte as a rune in the format [%#U],
    that is U+ and four upper-case hexadecimal digits, followed by the
    quoted character when it is printable. *)
Definition InvalidByteError (c : ascii) : string :=
  let n := N_of_ascii c in
  "encoding/hex: invalid byte: U+00"
  ++ String (upper_hexdigit (n / 16))
       (String (upper_hexdigit (n mod 16))
          (if IsPrint n then " '" ++ utf8 n ++ "'" else EmptyString)).

(** [hex.DecodeString]: the bytes decoded before the first error, and the
    error.  A character that is no hexadecimal digit is reported before an
    odd length. *)
Fixpoint DecodeString (s : string) : list byte * option string :=
  match s with
  | EmptyString => ([], None)
  | String p EmptyString =>
      match fromHexChar p with
      | None => ([], Some (InvalidByteError p))
      | Some _ => ([], Some ErrLength)
      end
  | String p (String q s') =>
      match fromHexChar p, fromHexChar q with
      | None, _ => ([], Some (InvalidByteError p))
      | Some _, None => ([], Some (InvalidByteError q))
      | Some a, Some b =>
          let '(dst, err) := DecodeString s' in
          (byte_of_nibbles a b :: dst, err)
      end
  end.

End GoHex.

(** ** Package [strconv] and [bytes] of the Go library *)

(** [strconv.FormatUint(n, 10)]: the decimal numeral of [n], "0" for zero. *)
Definition FormatUint10 (n : N) : string :=
  NilEmpty.string_of_uint (N.to_uint n).

(** [bytes.Equal]: same length and same bytes; a nil slice equals an empty
    one. *)
Fixpoint bytes_Equal (a b : list byte) : bool :=
  match a, b with
  | [], [] => true
  | x :: a', y :: b' => Byte.eqb x y && bytes_Equal a' b'
  | _, _ => false
  end.

Definition error : Type := string.

(** ** The records of the ledger (packages [common] and [peer] of Fabric)

    Only the fields the server reads.  The getters are the generated
    nil-safe ones: on a nil receiver they return the zero value. *)

Module common.

(** Field [Payload]. *)
Record Envelope := { Envelope_Payload : list byte }.

Record BlockHeader :=
  { Number : N; PreviousHash : list byte; DataHash : list byte }.

Record Block := { Header : option BlockHeader }.

Record Payload := { Data : list byte }.

Definition Envelope_GetPayload (m : option Envelope) : list byte :=
  match m with Some e => Envelope_Payload e | None => [] end.

Definition Block_GetHeader (m : Block) : option BlockHeader := Header m.

Definition BlockHeader_GetNumber (m : option BlockHeader) : N :=
  match m with Some h => Number h | None => 0%N end.

Definition Payload_GetData (m : Payload) : list byte := Data m.

End common.

Module peer.

Record ProcessedTransaction :=
  { TransactionEnvelope : option common.Envelope }.

Record TransactionAction := { Payload : list byte }.

Record Transaction := { Actions : list TransactionAction }.

(** Field [ProposalResponsePayload]; [None] is a nil slice. *)
Record ChaincodeEndorsedAction :=
  { CEA_ProposalResponsePayload : option (list byte) }.

(** Fields [ChaincodeProposalPayload] and [Action]. *)
Record ChaincodeActionPayload :=
  { CAP_ChaincodeProposalPayload : list byte;
    Action : option ChaincodeEndorsedAction }.

Record ChaincodeProposalPayload := { Input : list byte }.

(** Field [Extension]; [None] is a nil slice. *)
Record ProposalResponsePayload := { Extension : option (list byte) }.

(** Field [Payload]. *)
Record Response := { Response_Payload : list byte }.

(** Field [Response]. *)
Record ChaincodeAction := { CA_Response : option Response }.

Record ChaincodeInput := { Args : list (list byte) }.

(** Field [Input]. *)
Record ChaincodeSpec := { CS_Input : option ChaincodeInput }.

(** Field [ChaincodeSpec]. *)
Record ChaincodeInvocationSpec := { CIS_ChaincodeSpec : option ChaincodeSpec }.

Definition GetTransactionEnvelope (m : ProcessedTransaction)
  : option common.Envelope := TransactionEnvelope m.

Definition GetActions (m : Transaction) : list TransactionAction := Actions m.

Definition GetResponse (m : option ChaincodeAction) : option Response :=
  match m with Some a => CA_Response a | None => None end.

Definition Response_GetPayload (m : option Response) : list byte :=
  match m with Some r => Response_Payload r | None => [] end.

Definition GetChaincodeSpec (m : ChaincodeInvocationSpec)
  : option ChaincodeSpec := CIS_ChaincodeSpec m.

Definition GetInput (m : option ChaincodeSpec) : option ChaincodeInput :=
  match m with Some c => CS_Input c | None => None end.

End peer.

(** [proto.Unmarshal] into a message of type [T]: the message, or the error. *)
Class Message (T : Type) := { Unmarshal : list byte -> T + error }.

(** The decoders of the messages of the record chain, and the hash of a block
    header.  [BlockHeader_Hash] is given the receiver as it is, nil included,
    and [None] is a panic inside it. *)
Class FabricProtos :=
  { msg_ProcessedTransaction :: Message peer.ProcessedTransaction;
    msg_Block :: Message common.Block;
    msg_Payload :: Message common.Payload;
    msg_Transaction :: Message peer.Transaction;
    msg_ChaincodeActionPayload :: Message peer.ChaincodeActionPayload;
    msg_ChaincodeProposalPayload :: Message peer.ChaincodeProposalPayload;
    msg_ProposalResponsePayload :: Message peer.ProposalResponsePayload;
    msg_ChaincodeAction :: Message peer.ChaincodeAction;
    msg_ChaincodeInvocationSpec :: Message peer.ChaincodeInvocationSpec;
    BlockHeader_Hash : option common.BlockHeader -> option (list byte) }.

(** ** The ledger client (package [apitxn] of the Fabric SDK) *)

Module apitxn.

Record QueryRequest :=
  { ChaincodeID : string; Fcn : string; Args : list (list byte) }.

Record ExecuteTxRequest :=
  { Tx_ChaincodeID : string; Tx_Fcn : string; Tx_Args : list (list byte) }.

Record TransactionID := { ID : string }.

(** The interface [ChannelClient], over a ledger in state [W]: every method
    answers from the state of the ledger and may change it. *)
Class ChannelClient (W C : Type) :=
  { Query : C -> QueryRequest -> W -> (list byte * option error) * W;
    ExecuteTx :
      C -> ExecuteTxRequest -> W ->
      (list byte * TransactionID * option error) * W;
    Close : C -> W -> option error * W }.

End apitxn.

(** ** Outcomes and the state of a call *)

Inductive panic : Type :=
| LogPanic (msg : string)       (* log.Panic *)
| IndexOutOfRange               (* a[i] with i >= len(a) *)
| NilDereference                (* a field or method of a nil pointer or interface *)
| HashPanic.                    (* a panic inside BlockHeader.Hash *)

Inductive outcome (A : Type) : Type :=
| Returns (a : A)
| Panics (p : panic).
Arguments Returns {A} a.
Arguments Panics {A} p.

(** What a call does to the ledger client, in order (ghost state). *)
Inductive Event (C : Type) : Type :=
| EvNewChannelClient (channel user : string) (chClient : option C) (err : option error)
| EvQuery (c : C) (request : apitxn.QueryRequest)
| EvExecuteTx (c : C) (request : apitxn.ExecuteTxRequest)
| EvClose (c : C).
Arguments EvNewChannelClient {C}.
Arguments EvQuery {C}.
Arguments EvExecuteTx {C}.
Arguments EvClose {C}.

Record St (W C : Type) : Type :=
  { world : W; trace : list (Event C) }.
Arguments world {W C}.
Arguments trace {W C}.

Definition M (W C A : Type) : Type := St W C -> outcome A * St W C.

Definition ret {W C A} (a : A) : M W C A := fun s => (Returns a, s).

Definition raise {W C A} (p : panic) : M W C A := fun s => (Panics p, s).

Definition bind {W C A B} (m : M W C A) (k : A -> M W C B) : M W C B :=
  fun s =>
    match m s with
    | (Returns a, s') => k a s'
    | (Panics p, s') => (Panics p, s')
    end.

Notation "x <- m ;; k" := (bind m (fun x => k))
  (at level 61, m at next level, right associativity).
Notation "' pat <- m ;; k" := (bind m (fun x => match x with pat => k end))
  (at level 61, pat pattern, m at next level, right associativity).

(** ** The service *)

Definition DataParam : Type := string.

Record Params :=
  { From : string; To : string; Gas : string; GasPrice : string;
    Value : string; Data : string; Nonce : string }.

Record TxReceipt :=
  { TransactionHash : string;
    BlockHash : string;
    BlockNumber : string;
    ContractAddress : string;
    GasUsed : nat;
    CumulativeGasUsed : nat }.

Definition channelID : string := "channel1".
Definition zeroAddress : list byte := repeat x00 20.

(** The hexadecimal numeral of the zero address: 40 zero digits. *)
Definition zero_address_hex : string := "0000000000000000000000000000000000000000".

Section EthService.

Context {W C : Type}.
Context `{CC : apitxn.ChannelClient W C}.
Context `{FP : FabricProtos}.
(** [strings.ToLower], of the Go library. *)
Variable ToLower : string -> string.

(** [fabsdk.FabricSDK], with its method [NewChannelClient(channelID, user)]. *)
Record FabricSDK :=
  { sdk_NewChannelClient :
      string -> string -> W -> (option C * option error) * W }.

Record ethRPCService := { sdk : FabricSDK; user : string }.

Local Notation "'M'" := (M W C).

Definition log (e : Event C) (s : St W C) (w : W) : St W C :=
  {| world := w; trace := trace s ++ [e] |}.

(** [req.sdk.NewChannelClient(channelID, req.user)] *)
Definition NewChannelClient (req : ethRPCService) (channel usr : string)
  : M (option C * option error) :=
  fun s =>
    let '((chClient, err), w) := sdk_NewChannelClient (sdk req) channel usr (world s) in
    (Returns (chClient, err), log (EvNewChannelClient channel usr chClient err) s w).

(** [chClient.Query(request)]; a nil [chClient] has no method to call. *)
Definition chClient_Query (chClient : option C) (request : apitxn.QueryRequest)
  : M (list byte * option error) :=
  match chClient with
  | None => raise NilDereference
  | Some c =>
      fun s =>
        let '(r, w) := apitxn.Query c request (world s) in
        (Returns r, log (EvQuery c request) s w)
  end.

(** [chClient.ExecuteTx(request)] *)
Definition chClient_ExecuteTx (chClient : option C)
    (request : apitxn.ExecuteTxRequest)
  : M (list byte * apitxn.TransactionID * option error) :=
  match chClient with
  | None => raise NilDereference
  | Some c =>
      fun s =>
        let '(r, w) := apitxn.ExecuteTx c request (world s) in
        (Returns r, log (EvExecuteTx c request) s w)
  end.

(** [defer chClient.Close()] followed by [body]: the method value is taken
    where the defer statement stands, and the call runs when [body] is
    left, by a return or by a panic; its result is dropped. *)
Definition defer_Close {A} (chClient : option C) (body : M A) : M A :=
  match chClient with
  | None => raise NilDereference
  | Some c =>
      fun s =>
        let '(r, s1) := body s in
        let '(_, w) := apitxn.Close c (world s1) in
        (r, log (EvClose c) s1 w)
  end.

Definition Query (chClient : option C) (chaincodeID function : string)
    (queryArgs : list (list byte)) : M (list byte * option error) :=
  chClient_Query chClient
    {| apitxn.ChaincodeID := chaincodeID;
       apitxn.Fcn := function;
       apitxn.Args := queryArgs |}.

(** The functions below take the content of [*reply] at the call and
    return its content at the return, with the returned error.  The
    [*http.Request] is not used by the code and is left out, as are the
    lines printed on the standard output. *)

Definition GetCode (req : ethRPCService) (args : DataParam) (reply : string)
  : M (string * option error) :=
  '(chClient, err) <- NewChannelClient req channelID (user req) ;;
  match err with
  | Some e => raise (LogPanic ("error creating client" ++ e)%string)
  | None =>
      defer_Close chClient
        (let queryArgs := [list_byte_of_string (Strip0xFromHex args)] in
         '(value, err) <- Query chClient "evmscc" "getCode" queryArgs ;;
         (* if err != nil { fmt.Printf("Failed to query: %s\n", err) } *)
         let reply := string_of_list_byte value in
         ret (reply, None))
  end.

Definition Call (req : ethRPCService) (params : Params) (reply : string)
  : M (string * option error) :=
  '(chClient, err) <- NewChannelClient req channelID (user req) ;;
  match err with
  | Some e => ret (reply, Some e)
  | None =>
      defer_Close chClient
        (let args := [list_byte_of_string (Strip0xFromHex (Data params))] in
         '(value, err) <- Query chClient "evmscc" (Strip0xFromHex (To params)) args ;;
         match err with
         | Some e => ret (reply, Some e)
         | None =>
             let reply := ("0x" ++ GoHex.EncodeToString value)%string in
             ret (reply, None)
         end)
  end.

(** [params.To = v] *)
Definition set_To (params : Params) (v : string) : Params :=
  {| From := From params; To := v; Gas := Gas params;
     GasPrice := GasPrice params; Value := Value params;
     Data := Data params; Nonce := Nonce params |}.

Definition SendTransaction (req : ethRPCService) (params : Params) (reply : string)
  : M (string * option error) :=
  '(chClient, err) <- NewChannelClient req channelID (user req) ;;
  match err with
  | Some e => ret (reply, Some e)
  | None =>
      defer_Close chClient
        (let params :=
           if String.eqb (To params) "" then
             set_To params (GoHex.EncodeToString zeroAddress)
           else params in
         let txReq :=
           {| apitxn.Tx_ChaincodeID := "evmscc";
              apitxn.Tx_Fcn := Strip0xFromHex (To params);
              apitxn.Tx_Args := [list_byte_of_string (Strip0xFromHex (Data params))] |} in
         '(_, txID, err) <- chClient_ExecuteTx chClient txReq ;;
         match err with
         | Some e => ret (reply, Some e)
         | None =>
             let reply := apitxn.ID txID in
             ret (reply, None)
         end)
  end.

Definition Accounts (req : ethRPCService) (params : DataParam) (reply : list string)
  : M (list string * option error) :=
  '(chClient, err) <- NewChannelClient req channelID (user req) ;;
  match err with
  | Some e => raise (LogPanic ("error creating client" ++ e)%string)
  | None =>
      defer_Close chClient
        (let queryArgs := [] in
         '(value, err) <- Query chClient "evmscc" "account" queryArgs ;;
         match err with
         | Some e => ret (reply, Some e)
         | None =>
             let reply := [("0x" ++ ToLower (string_of_list_byte value))%string] in
             ret (reply, None)
         end)
  end.

Definition Errorf (msg : string) : error := msg.

Definition GetPayloads (txActions : peer.TransactionAction)
  : option peer.ChaincodeProposalPayload * option peer.ChaincodeAction
    * option error :=
  match Unmarshal (T := peer.ChaincodeActionPayload) (peer.Payload txActions) with
  | inr err => (None, None, Some err)
  | inl ccPayload =>
      match peer.Action ccPayload with
      | None => (None, None, Some (Errorf "no payload in ChaincodeActionPayload"))
      | Some action =>
          match peer.CEA_ProposalResponsePayload action with
          | None => (None, None, Some (Errorf "no payload in ChaincodeActionPayload"))
          | Some proposalResponsePayload =>
              match Unmarshal (T := peer.ChaincodeProposalPayload)
                      (peer.CAP_ChaincodeProposalPayload ccPayload) with
              | inr err => (None, None, Some err)
              | inl ccProposalPayload =>
                  match Unmarshal (T := peer.ProposalResponsePayload)
                          proposalResponsePayload with
                  | inr err => (None, None, Some err)
                  | inl pRespPayload =>
                      match peer.Extension pRespPayload with
                      | None =>
                          (None, None,
                           Some (Errorf "response payload is missing extension"))
                      | Some extension =>
                          match Unmarshal (T := peer.ChaincodeAction) extension with
                          | inr err => (Some ccProposalPayload, None, Some err)
                          | inl respPayload =>
                              (Some ccProposalPayload, Some respPayload, None)
                          end
                      end
                  end
              end
          end
      end
  end.

(** [receipt.ContractAddress = v] *)
Definition set_ContractAddress (receipt : TxReceipt) (v : string) : TxReceipt :=
  {| TransactionHash := TransactionHash receipt;
     BlockHash := BlockHash receipt;
     BlockNumber := BlockNumber receipt;
     ContractAddress := v;
     GasUsed := GasUsed receipt;
     CumulativeGasUsed := CumulativeGasUsed receipt |}.

(** [if err != nil { return err }], [*reply] being as it is. *)
Local Notation "'if_err' err 'return_with' reply ;; k" :=
  (match err with Some e => ret (reply, Some e) | None => k end)
  (at level 61, err at next level, reply at next level, right associativity).

(** [err = proto.Unmarshal(buf, x); if err != nil { return err }] *)
Local Notation "x <~ r 'or_return_with' reply ;; k" :=
  (match r with inl x => k | inr e => ret (reply, Some e) end)
  (at level 61, r at next level, reply at next level, right associativity).

(** A value whose absence in the code is a run-time panic. *)
Local Notation "x <~ o 'or_panic' p ;; k" :=
  (match o with Some x => k | None => raise p end)
  (at level 61, o at next level, p at next level, right associativity).

Definition GetTransactionReceipt (req : ethRPCService) (param : DataParam)
    (reply : TxReceipt) : M (TxReceipt * option error) :=
  (* the error of NewChannelClient is overwritten by the next assignment
     to [err] before it is read *)
  '(chClient, _) <- NewChannelClient req channelID (user req) ;;
  let args := [list_byte_of_string channelID; list_byte_of_string param] in
  '(t, err) <- Query chClient "qscc" "GetTransactionByID" args ;;
  if_err err return_with reply ;;
  tx <~ Unmarshal (T := peer.ProcessedTransaction) t or_return_with reply ;;
  '(b, err) <- Query chClient "qscc" "GetBlockByTxID" args ;;
  if_err err return_with reply ;;
  block <~ Unmarshal (T := common.Block) b or_return_with reply ;;
  let blkHeader := common.Block_GetHeader block in
  let p := common.Envelope_GetPayload (peer.GetTransactionEnvelope tx) in
  payload <~ Unmarshal (T := common.Payload) p or_return_with reply ;;
  txActions <~ Unmarshal (T := peer.Transaction) (common.Payload_GetData payload)
    or_return_with reply ;;
  let actions := peer.GetActions txActions in
  action0 <~ nth_error actions 0 or_panic IndexOutOfRange ;;
  let '(ccPropPayload, respPayload, err) := GetPayloads action0 in
  if_err err return_with reply ;;
  ccPropPayload <~ ccPropPayload or_panic NilDereference ;;
  invokeSpec <~ Unmarshal (T := peer.ChaincodeInvocationSpec) (peer.Input ccPropPayload)
    or_return_with reply ;;
  hash <~ BlockHeader_Hash blkHeader or_panic HashPanic ;;
  let receipt :=
    {| TransactionHash := param;
       BlockHash := GoHex.EncodeToString hash;
       BlockNumber := FormatUint10 (common.BlockHeader_GetNumber blkHeader);
       ContractAddress := "";
       GasUsed := 0;
       CumulativeGasUsed := 0 |} in
  input <~ peer.GetInput (peer.GetChaincodeSpec invokeSpec) or_panic NilDereference ;;
  let args := peer.Args input in
  (* First arg is the callee address. If it is zero address, tx was a
     contract creation *)
  arg0 <~ nth_error args 0 or_panic IndexOutOfRange ;;
  let '(callee, err) := GoHex.DecodeString (string_of_list_byte arg0) in
  if_err err return_with reply ;;
  let receipt :=
    if bytes_Equal callee zeroAddress then
      set_ContractAddress receipt
        (string_of_list_byte (peer.Response_GetPayload (peer.GetResponse respPayload)))
    else receipt in
  let reply := receipt in
  ret (reply, None).

(** *** What a successful receipt lookup has read and decoded *)

Definition request_GetTransactionByID (param : DataParam) : apitxn.QueryRequest :=
  {| apitxn.ChaincodeID := "qscc";
     apitxn.Fcn := "GetTransactionByID";
     apitxn.Args := [list_byte_of_string channelID; list_byte_of_string param] |}.

Definition request_GetBlockByTxID (param : DataParam) : apitxn.QueryRequest :=
  {| apitxn.ChaincodeID := "qscc";
     apitxn.Fcn := "GetBlockByTxID";
     apitxn.Args := [list_byte_of_string channelID; list_byte_of_string param] |}.

(** From the ledger in state [w], the service gets the client [c], then the
    answer [t] to the first query and the answer [b] to the second. *)
Definition ledger_answers (req : ethRPCService) (param : DataParam) (w : W)
    (c : C) (t b : list byte) : Prop :=
  exists e0 w1 w2 w3,
    sdk_NewChannelClient (sdk req) channelID (user req) w = ((Some c, e0), w1) /\
    apitxn.Query c (request_GetTransactionByID param) w1 = ((t, None), w2) /\
    apitxn.Query c (request_GetBlockByTxID param) w2 = ((b, None), w3).

(** [b] decodes to a block whose header is [blkHeader]. *)
Definition decodes_to_header (b : list byte)
    (blkHeader : option common.BlockHeader) : Prop :=
  exists block,
    Unmarshal (T := common.Block) b = inl block /\
    common.Block_GetHeader block = blkHeader.

(** [t] decodes to a transaction whose action list is [actions]. *)
Definition decodes_to_actions (t : list byte)
    (actions : list peer.TransactionAction) : Prop :=
  exists tx payload txActions,
    Unmarshal (T := peer.ProcessedTransaction) t = inl tx /\
    Unmarshal (T := common.Payload)
      (common.Envelope_GetPayload (peer.GetTransactionEnvelope tx)) = inl payload /\
    Unmarshal (T := peer.Transaction) (common.Payload_GetData payload) = inl txActions /\
    peer.GetActions txActions = actions.

(** The first action [action0] decodes to the response payload
    [respPayload] and to an invocation whose argument list is [args]. *)
Definition decodes_to_invocation (action0 : peer.TransactionAction)
    (respPayload : peer.ChaincodeAction) (args : list (list byte)) : Prop :=
  exists ccPropPayload invokeSpec input,
    GetPayloads action0 = (Some ccPropPayload, Some respPayload, None) /\
    Unmarshal (T := peer.ChaincodeInvocationSpec) (peer.Input ccPropPayload)
      = inl invokeSpec /\
    peer.GetInput (peer.GetChaincodeSpec invokeSpec) = Some input /\
    peer.Args input = args.

(** [t] decodes, through its first action, to the response payload
    [respPayload] and to a first invocation argument that is the hexadecimal
    numeral of [callee]. *)
Definition decodes_to_call (t : list byte) (callee : list byte)
    (respPayload : peer.ChaincodeAction) : Prop :=
  exists actions action0 args arg0,
    decodes_to_actions t actions /\
    nth_error actions 0 = Some action0 /\
    decodes_to_invocation action0 respPayload args /\
    nth_error args 0 = Some arg0 /\
    GoHex.DecodeString (string_of_list_byte arg0) = (callee, None).

(** The release of a channel client. *)
Definition is_Close (ev : Event C) : Prop :=
  match ev with EvClose _ => True | _ => False end.

(** The events a call adds to the trace. *)
Definition adds_events (s s' : St W C) (evs : list (Event C)) : Prop :=
  trace s' = trace s ++ evs.

End EthService.

(** ** A small ledger, to run the service on

    The state of the ledger says whether a channel client can be had,
    whether queries and invocations go through, and which transaction the
    ledger holds.  A blob is a single byte naming one of a few records. *)

Module Sample.

Record ledger :=
  { connects : bool; answers : bool; tx_blob : byte; calls : nat }.

Definition tick (w : ledger) : ledger :=
  {| connects := connects w; answers := answers w; tx_blob := tx_blob w;
     calls := S (calls w) |}.

Definition client : apitxn.ChannelClient ledger nat :=
  {| apitxn.Query := fun _ request w =>
       if answers w then
         if String.eqb (apitxn.Fcn request) "GetTransactionByID" then
           (([tx_blob w], None), tick w)
         else if String.eqb (apitxn.Fcn request) "GetBlockByTxID" then
           (([x07], None), tick w)
         else ((list_byte_of_string "ab", None), tick w)
       else ((list_byte_of_string "stale", Some "query refused"), tick w);
     apitxn.ExecuteTx := fun _ request w =>
       if answers w then (([], {| apitxn.ID := "tx-1" |}, None), tick w)
       else (([], {| apitxn.ID := "" |}, Some "invoke refused"), tick w);
     apitxn.Close := fun _ w => (None, tick w) |}.

Definition fabsdk : FabricSDK (W := ledger) (C := nat) :=
  {| sdk_NewChannelClient := fun _ _ w =>
       if connects w then ((Some 1, None), tick w)
       else ((None, Some "no channel"), tick w) |}.

Definition service : ethRPCService := {| sdk := fabsdk; user := "User1" |}.

(** The transactions held: [x00] has no action, [x02] no extension, [x03] no
    argument, [x04] calls the zero address (a creation), any other calls
    the address 12...12. *)
Definition first_byte (buf : list byte) : byte :=
  match buf with v :: _ => v | [] => x00 end.

Definition created : list byte := [xaa; xbb].

Definition protos : FabricProtos :=
  {| msg_ProcessedTransaction :=
       {| Unmarshal := fun buf =>
            inl {| peer.TransactionEnvelope :=
                     Some {| common.Envelope_Payload := buf |} |} |};
     msg_Block :=
       {| Unmarshal := fun buf =>
            inl {| common.Header :=
                     Some {| common.Number := Byte.to_N (first_byte buf);
                             common.PreviousHash := [];
                             common.DataHash := [] |} |} |};
     msg_Payload :=
       {| Unmarshal := fun buf => inl {| common.Data := buf |} |};
     msg_Transaction :=
       {| Unmarshal := fun buf =>
            inl {| peer.Actions :=
                     if Byte.eqb (first_byte buf) x00 then []
                     else [{| peer.Payload := buf |}] |} |};
     msg_ChaincodeActionPayload :=
       {| Unmarshal := fun buf =>
            inl {| peer.CAP_ChaincodeProposalPayload := buf;
                   peer.Action :=
                     Some {| peer.CEA_ProposalResponsePayload := Some buf |} |} |};
     msg_ChaincodeProposalPayload :=
       {| Unmarshal := fun buf => inl {| peer.Input := buf |} |};
     msg_ProposalResponsePayload :=
       {| Unmarshal := fun buf =>
            inl {| peer.Extension :=
                     if Byte.eqb (first_byte buf) x02 then None else Some buf |} |};
     msg_ChaincodeAction :=
       {| Unmarshal := fun _ =>
            inl {| peer.CA_Response :=
                     Some {| peer.Response_Payload := created |} |} |};
     msg_ChaincodeInvocationSpec :=
       {| Unmarshal := fun buf =>
            inl {| peer.CIS_ChaincodeSpec :=
                     Some {| peer.CS_Input :=
                               Some {| peer.Args :=
                                 if Byte.eqb (first_byte buf) x03 then []
                                 else if Byte.eqb (first_byte buf) x04 then
                                   [list_byte_of_string
                                      (GoHex.EncodeToString zeroAddress)]
                                 else
                                   [list_byte_of_string
                                      (GoHex.EncodeToString (repeat x12 20))] |} |} |} |};
     BlockHeader_Hash := fun h =>
       match h with
       | Some hd => Some [xde; xad; Byte.x00]
       | None => None
       end |}.

Definition ascii_lower (c : ascii) : ascii :=
  let n := N_of_ascii c in
  if (65 <=? n)%N && (n <=? 90)%N then ascii_of_N (n + 32) else c.

Fixpoint ToLower (s : string) : string :=
  match s with
  | EmptyString => EmptyString
  | String c s' => String (ascii_lower c) (ToLower s')
  end.

Definition holding (k : byte) : St ledger nat :=
  {| world := {| connects := true; answers := true; tx_blob := k; calls := 0 |};
     trace := [] |}.

Definition refusing : St ledger nat :=
  {| world := {| connects := true; answers := false; tx_blob := x05; calls := 0 |};
     trace := [] |}.

Definition unreachable : St ledger nat :=
  {| world := {| connects := false; answers := true; tx_blob := x05; calls := 0 |};
     trace := [] |}.

Definition no_receipt : TxReceipt :=
  {| TransactionHash := ""; BlockHash := ""; BlockNumber := "";
     ContractAddress := ""; GasUsed := 0; CumulativeGasUsed := 0 |}.

Definition params_to (to : string) : Params :=
  {| From := ""; To := to; Gas := ""; GasPrice := ""; Value := "";
     Data := "0x6060"; Nonce := "" |}.

(** A ledger that tells the transactions submitted from those committed,
    and two clients for it.  The invocation of [gateway] returns once the
    transaction is submitted, before it is committed, as the spec describes
    the invoke primitive; that of [blocking] returns once the transaction is
    committed. *)
Record chain := { pending : list string; committed : list string }.

Definition submit (txid : string) (w : chain) : chain :=
  {| pending := txid :: pending w; committed := committed w |}.


Definition gateway : apitxn.ChannelClient chain nat :=
  {| apitxn.Query := fun _ _ w => (([], None), w);
     apitxn.ExecuteTx := fun _ _ w =>
       (([], {| apitxn.ID := "tx-1" |}, None), submit "tx-1" w);
     apitxn.Close := fun _ w => (None, w) |}.


Definition chain_service : ethRPCService (W := chain) (C := nat) :=
  {| sdk := {| sdk_NewChannelClient := fun _ _ w => ((Some 1, None), w) |};
     user := "User1" |}.

Definition chain_start : St chain nat :=
  {| world := {| pending := []; committed := [] |}; trace := [] |}.

(** Decoders as [protos], but for an action payload that carries no
    action. *)
Definition protos_without_action : FabricProtos :=
  {| msg_ProcessedTransaction := msg_ProcessedTransaction (FabricProtos := protos);
     msg_Block := msg_Block (FabricProtos := protos);
     msg_Payload := msg_Payload (FabricProtos := protos);
     msg_Transaction := msg_Transaction (FabricProtos := protos);
     msg_ChaincodeActionPayload :=
       {| Unmarshal := fun buf =>
            inl {| peer.CAP_ChaincodeProposalPayload := buf;
                   peer.Action := None |} |};
     msg_ChaincodeProposalPayload :=
       msg_ChaincodeProposalPayload (FabricProtos := protos);
     msg_ProposalResponsePayload :=
       msg_ProposalResponsePayload (FabricProtos := protos);
     msg_ChaincodeAction := msg_ChaincodeAction (FabricProtos := protos);
     msg_ChaincodeInvocationSpec :=
       msg_ChaincodeInvocationSpec (FabricProtos := protos);
     BlockHeader_Hash := BlockHeader_Hash (FabricProtos := protos) |}.

Definition action_of (k : byte) : peer.TransactionAction :=
  {| peer.Payload := [k] |}.

Definition receipt_of (k : byte)
  : outcome (TxReceipt * option error) * St ledger nat :=
  GetTransactionReceipt (CC := client) (FP := protos) service "abc" no_receipt
    (holding k).

Definition header7 : common.BlockHeader :=
  {| common.Number := 7; common.PreviousHash := []; common.DataHash := [] |}.

Definition response : peer.ChaincodeAction :=
  {| peer.CA_Response := Some {| peer.Response_Payload := created |} |}.

Definition receipt7 (contractAddress : string) : TxReceipt :=
  {| TransactionHash := "abc"; BlockHash := "dead00"; BlockNumber := "7";
     ContractAddress := contractAddress; GasUsed := 0; CumulativeGasUsed := 0 |}.

End Sample.

(** * Properties *)

(** ** Strings *)

Module GoStringsFacts.
Import GoStrings.

Lemma slice_from_nil n : slice_from n EmptyString = EmptyString.
Proof. destruct n; reflexivity. Qed.

Lemma get_slice_from n : forall s j, String.get j (slice_from n s) = String.get (n + j) s.
Proof.
  induction n as [|n IH]; intros s j; [reflexivity|].
  destruct s as [|c s]; simpl.
  - destruct j; reflexivity.
  - apply IH.
Qed.

Lemma slice_from_add a : forall b s, slice_from (a + b) s = slice_from b (slice_from a s).
Proof.
  induction a as [|a IH]; intros b s; [reflexivity|].
  destruct s as [|c s]; simpl.
  - now rewrite slice_from_nil.
  - apply IH.
Qed.

Lemma length_slice_from n : forall s, String.length (slice_from n s) = String.length s - n.
Proof.
  induction n as [|n IH]; intros s; simpl.
  - now rewrite Nat.sub_0_r.
  - destruct s as [|c s]; simpl; [reflexivity | apply IH].
Qed.

Lemma get_Some_lt : forall s i c, String.get i s = Some c -> i < String.length s.
Proof.
  induction s as [|a s IH]; intros i c H; simpl in *; [discriminate|].
  destruct i as [|i]; [lia|]. apply IH in H. lia.
Qed.

Lemma slice_from_all : forall s n, String.length s <= n -> slice_from n s = EmptyString.
Proof.
  induction s as [|a s IH]; intros n H; [apply slice_from_nil|].
  destruct n as [|n]; simpl in *; [lia|]. apply IH. lia.
Qed.

Lemma prefix_0x_iff s : String.prefix "0x" s = true <-> occurs_0x_at 0 s.
Proof.
  unfold occurs_0x_at.
  destruct s as [|a [|b s]]; cbn [String.prefix String.get];
    repeat match goal with
           | |- context [ascii_dec ?x ?y] => destruct (ascii_dec x y)
           end; subst; split; intros H;
    try discriminate; try (destruct H; congruence).
  - auto.
  - destruct s; reflexivity.
Qed.

Lemma occurs_0x_at_S i a s : occurs_0x_at (S i) (String a s) <-> occurs_0x_at i s.
Proof. unfold occurs_0x_at; simpl; tauto. Qed.

(** [Index] finds the first occurrence. *)
Lemma Index_Some : forall s m,
  Index s "0x" = Some m ->
  occurs_0x_at m s /\ forall j, occurs_0x_at j s -> m <= j.
Proof.
  induction s as [|a s IH]; intros m H.
  - simpl in H. discriminate.
  - cbn [Index] in H.
    destruct (String.prefix "0x" (String a s)) eqn:P.
    + injection H as <-. split; [now apply prefix_0x_iff | intros; lia].
    + destruct (Index s "0x") as [k|] eqn:E; simpl in H; [|discriminate].
      injection H as <-. destruct (IH k eq_refl) as [Hk Hmin]. split.
      * now apply occurs_0x_at_S.
      * intros [|j] Hj.
        -- apply prefix_0x_iff in Hj. congruence.
        -- apply occurs_0x_at_S in Hj. apply Hmin in Hj. lia.
Qed.

Lemma Index_None : forall s, Index s "0x" = None -> forall j, ~ occurs_0x_at j s.
Proof.
  induction s as [|a s IH]; intros H j Hj.
  - destruct Hj as [Hj _]. destruct j; discriminate.
  - cbn [Index] in H.
    destruct (String.prefix "0x" (String a s)) eqn:P; [discriminate|].
    destruct (Index s "0x") eqn:E; [discriminate|].
    destruct j as [|j].
    + apply prefix_0x_iff in Hj. congruence.
    + apply occurs_0x_at_S in Hj. now apply (IH eq_refl j).
Qed.

Lemma Index_None_of_absent s : (forall j, ~ occurs_0x_at j s) -> Index s "0x" = None.
Proof.
  intros H. destruct (Index s "0x") as [m|] eqn:E; [|reflexivity].
  apply Index_Some in E. destruct E as [E _]. now apply H in E.
Qed.

Lemma occurs_0x_at_slice_from n j s :
  occurs_0x_at j (slice_from n s) <-> occurs_0x_at (n + j) s.
Proof.
  unfold occurs_0x_at. rewrite !get_slice_from.
  replace (n + S j) with (S (n + j)) by lia. tauto.
Qed.

Lemma genSplit_loop_nonempty n : forall s sep, genSplit_loop n s sep <> [].
Proof.
  destruct n; intros s sep; simpl; [discriminate|].
  destruct (Index s sep); discriminate.
Qed.

Lemma Split_nonempty s sep : Split s sep <> [].
Proof. apply genSplit_loop_nonempty. Qed.

Lemma nth_last_cons (x : string) l d :
  l <> [] -> nth (List.length (x :: l) - 1) (x :: l) d = nth (List.length l - 1) l d.
Proof.
  destruct l as [|y l]; [congruence|]. intros _. simpl.
  now rewrite Nat.sub_0_r.
Qed.

Lemma last_piece_spec : forall turns s,
  String.length s <= turns ->
  (Index s "0x" = None -> last_piece turns s = s) /\
  (forall i, last_0x_at i s -> last_piece turns s = slice_from (i + 2) s).
Proof.
  induction turns as [|turns IH]; intros s Hlen.
  - destruct s; simpl in Hlen; [|lia]. split; [reflexivity|].
    intros i [[H _] _]. destruct i; discriminate.
  - unfold last_piece. cbn [Count_loop].
    destruct (Index s "0x") as [m|] eqn:E.
    + cbn [genSplit_loop]. rewrite E. split; [discriminate|].
      intros i [Hi Hmax].
      destruct (Index_Some _ _ E) as [Hm Hmin].
      assert (Hlt : S m < String.length s)
        by (destruct Hm as [_ Hm]; now apply get_Some_lt in Hm).
      change (String.length "0x") with 2.
      set (rest := slice_from (m + 2) s).
      assert (Hrest : String.length rest <= turns)
        by (unfold rest; rewrite length_slice_from; lia).
      rewrite nth_last_cons by apply genSplit_loop_nonempty.
      fold (last_piece turns rest).
      destruct (IH rest Hrest) as [IHnone IHlast].
      assert (Hmi : m <= i) by now apply Hmin.
      destruct (Nat.eq_dec i m) as [->|Hne].
      * apply IHnone. apply Index_None_of_absent. intros j Hj.
        apply occurs_0x_at_slice_from in Hj. apply Hmax in Hj. lia.
      * assert (i <> S m).
        { intros ->. destruct Hm as [_ Hm]. destruct Hi as [Hi _]. congruence. }
        replace (i + 2) with ((m + 2) + (i - (m + 2) + 2)) by lia.
        rewrite slice_from_add. apply IHlast. split.
        -- apply occurs_0x_at_slice_from.
           now replace (m + 2 + (i - (m + 2))) with i by lia.
        -- intros j Hj. apply occurs_0x_at_slice_from in Hj.
           apply Hmax in Hj. lia.
    + cbn [genSplit_loop]. split; [reflexivity|].
      intros i [Hi _]. now apply (Index_None _ E) in Hi.
Qed.

Lemma Strip0xFromHex_last s i :
  last_0x_at i s -> Strip0xFromHex s = slice_from (i + 2) s.
Proof. intros H. now apply (last_piece_spec (String.length s) s (le_n _)). Qed.

Lemma Strip0xFromHex_absent s :
  (forall j, ~ occurs_0x_at j s) -> Strip0xFromHex s = s.
Proof.
  intros H. apply (last_piece_spec (String.length s) s (le_n _)).
  now apply Index_None_of_absent.
Qed.

Lemma get_append_tail : forall pre s i,
  String.get (String.length pre + i) (pre ++ s) = String.get i s.
Proof. induction pre as [|a pre IH]; intros s i; simpl; [reflexivity | apply IH]. Qed.

Lemma length_append : forall a b : string,
  String.length (a ++ b) = String.length a + String.length b.
Proof. induction a as [|c a IH]; intros b; simpl; [reflexivity | now rewrite IH]. Qed.

Lemma last_0x_at_end pre : last_0x_at (String.length pre) (pre ++ "0x").
Proof.
  split.
  - split.
    + now rewrite <- (Nat.add_0_r (String.length pre)), get_append_tail.
    + replace (S (String.length pre)) with (String.length pre + 1) by lia.
      now rewrite get_append_tail.
  - intros j [_ Hj]. apply get_Some_lt in Hj. rewrite length_append in Hj.
    simpl in Hj. lia.
Qed.

Lemma Strip0xFromHex_suffix_0x pre : Strip0xFromHex (pre ++ "0x") = EmptyString.
Proof.
  rewrite (Strip0xFromHex_last _ _ (last_0x_at_end pre)).
  apply slice_from_all. rewrite length_append. simpl. lia.
Qed.

(** The count does not depend on the number of turns, once there are
    [length s] of them: the loop of [Count] has ended by then. *)
Lemma Count_loop_enough : forall t1 t2 s,
  String.length s <= t1 -> String.length s <= t2 ->
  Count_loop t1 s "0x" = Count_loop t2 s "0x".
Proof.
  induction t1 as [|t1 IH]; intros t2 s H1 H2.
  - destruct s; simpl in H1; [|lia]. destruct t2; reflexivity.
  - destruct t2 as [|t2].
    + destruct s; simpl in H2; [|lia]. reflexivity.
    + cbn [Count_loop]. destruct (Index s "0x") as [m|] eqn:E; [|reflexivity].
      destruct (Index_Some _ _ E) as [[_ Hm] _]. apply get_Some_lt in Hm.
      f_equal. apply IH; rewrite length_slice_from; simpl; lia.
Qed.

(** [Split] returns one piece more than there are occurrences counted. *)
Lemma Split_length s : List.length (Split s "0x") = Count s "0x" + 1.
Proof.
  unfold Split, Count. generalize (String.length s) at 1 2 as turns.
  intros turns. revert s.
  induction turns as [|turns IH]; intros s; [reflexivity|].
  cbn [Count_loop]. destruct (Index s "0x") as [m|] eqn:E.
  - cbn [genSplit_loop]. rewrite E. cbn [List.length]. now rewrite IH.
  - cbn [genSplit_loop]. reflexivity.
Qed.

End GoStringsFacts.

(** ** The service *)

Section ServiceFacts.

Context {W C : Type}.
Context `{CC : apitxn.ChannelClient W C}.
Context `{FP : FabricProtos}.
Variable ToLower : string -> string.

Ltac run :=
  unfold GetCode, Call, SendTransaction, Accounts, GetTransactionReceipt,
    Query, chClient_Query, chClient_ExecuteTx, defer_Close, NewChannelClient,
    bind, ret, raise, log, adds_events; cbn beta iota.

Ltac run_in H :=
  unfold GetCode, Call, SendTransaction, Accounts, GetTransactionReceipt,
    Query, chClient_Query, chClient_ExecuteTx, defer_Close, NewChannelClient,
    bind, ret, raise, log, adds_events in H; cbn beta iota in H.

Ltac step H := rewrite H; cbn beta iota zeta; cbn [fst snd world trace].

Ltac close :=
  repeat match goal with
         | |- context [apitxn.Close ?c ?w] => destruct (apitxn.Close c w)
         end;
  cbn beta iota zeta; cbn [fst snd world trace].

Lemma bytes_Equal_eq : forall a b, bytes_Equal a b = true <-> a = b.
Proof.
  induction a as [|x a IH]; destruct b as [|y b]; simpl; split; intros H;
    try congruence.
  - apply andb_true_iff in H. destruct H as [Hx Hab].
    apply Byte.byte_dec_bl in Hx. apply IH in Hab. congruence.
  - injection H as -> ->. apply andb_true_iff. split.
    + now apply Byte.byte_dec_lb.
    + now apply IH.
Qed.

(** [GetPayloads] returns both payloads whenever it returns no error. *)
Lemma GetPayloads_ok (a : peer.TransactionAction) x y :
  GetPayloads a = (x, y, None) ->
  exists ccPropPayload respPayload, x = Some ccPropPayload /\ y = Some respPayload.
Proof.
  unfold GetPayloads. intros H.
  repeat match type of H with
         | context [match ?e with _ => _ end] => destruct e
         end; try discriminate.
  injection H as <- <-. eauto.
Qed.

(** A missing extension is reported by [GetPayloads] as an error. *)
Lemma GetPayloads_missing_extension (a : peer.TransactionAction)
    ccPayload action prp ccProposalPayload pRespPayload :
  Unmarshal (T := peer.ChaincodeActionPayload) (peer.Payload a) = inl ccPayload ->
  peer.Action ccPayload = Some action ->
  peer.CEA_ProposalResponsePayload action = Some prp ->
  Unmarshal (T := peer.ChaincodeProposalPayload)
    (peer.CAP_ChaincodeProposalPayload ccPayload) = inl ccProposalPayload ->
  Unmarshal (T := peer.ProposalResponsePayload) prp = inl pRespPayload ->
  peer.Extension pRespPayload = None ->
  GetPayloads a = (None, None, Some "response payload is missing extension").
Proof.
  intros H1 H2 H3 H4 H5 H6. unfold GetPayloads.
  now rewrite H1, H2, H3, H4, H5, H6.
Qed.

(** *** Failing queries and invocations *)

Lemma Call_query_error req params reply s c w1 value e w2 :
  sdk_NewChannelClient (sdk req) channelID (user req) (world s) = ((Some c, None), w1) ->
  apitxn.Query c
    {| apitxn.ChaincodeID := "evmscc";
       apitxn.Fcn := Strip0xFromHex (To params);
       apitxn.Args := [list_byte_of_string (Strip0xFromHex (Data params))] |} w1
    = ((value, Some e), w2) ->
  exists s', Call req params reply s = (Returns (reply, Some e), s').
Proof. intros H1 H2. run. step H1. step H2. close. eauto. Qed.

Lemma Accounts_query_error req params reply s c w1 value e w2 :
  sdk_NewChannelClient (sdk req) channelID (user req) (world s) = ((Some c, None), w1) ->
  apitxn.Query c
    {| apitxn.ChaincodeID := "evmscc"; apitxn.Fcn := "account"; apitxn.Args := [] |} w1
    = ((value, Some e), w2) ->
  exists s', Accounts ToLower req params reply s = (Returns (reply, Some e), s').
Proof. intros H1 H2. run. step H1. step H2. close. eauto. Qed.

Lemma SendTransaction_invoke_error req params reply s c w1 payload txID e w2 :
  sdk_NewChannelClient (sdk req) channelID (user req) (world s) = ((Some c, None), w1) ->
  apitxn.ExecuteTx c
    {| apitxn.Tx_ChaincodeID := "evmscc";
       apitxn.Tx_Fcn :=
         Strip0xFromHex
           (if String.eqb (To params) "" then GoHex.EncodeToString zeroAddress
            else To params);
       apitxn.Tx_Args := [list_byte_of_string (Strip0xFromHex (Data params))] |} w1
    = ((payload, txID, Some e), w2) ->
  exists s', SendTransaction req params reply s = (Returns (reply, Some e), s').
Proof.
  intros H1 H2. run. step H1.
  destruct (String.eqb (To params) ""); cbn [To Data set_To]; step H2; close; eauto.
Qed.

Lemma GetTransactionReceipt_first_query_error req param reply s c e0 w1 t e w2 :
  sdk_NewChannelClient (sdk req) channelID (user req) (world s) = ((Some c, e0), w1) ->
  apitxn.Query c (request_GetTransactionByID param) w1 = ((t, Some e), w2) ->
  exists s', GetTransactionReceipt req param reply s = (Returns (reply, Some e), s').
Proof.
  intros H1 H2. unfold request_GetTransactionByID in H2.
  run. step H1. step H2. eauto.
Qed.

(** *** Inversion of a successful receipt lookup *)

Ltac split_match H :=
  match type of H with
  | context [match ?e with _ => _ end] =>
      let E := fresh "E" in destruct e eqn:E; try discriminate H
  end.

Lemma GetTransactionReceipt_ok_inv req param reply s r s' :
  GetTransactionReceipt req param reply s = (Returns (r, None), s') ->
  exists c t b blkHeader hash callee respPayload,
    ledger_answers req param (world s) c t b /\
    decodes_to_header b blkHeader /\
    BlockHeader_Hash blkHeader = Some hash /\
    decodes_to_call t callee respPayload /\
    r = {| TransactionHash := param;
           BlockHash := GoHex.EncodeToString hash;
           BlockNumber := FormatUint10 (common.BlockHeader_GetNumber blkHeader);
           ContractAddress :=
             if bytes_Equal callee zeroAddress then
               string_of_list_byte
                 (peer.Response_GetPayload (peer.GetResponse (Some respPayload)))
             else EmptyString;
           GasUsed := 0;
           CumulativeGasUsed := 0 |}.
Proof.
  intros H. run_in H.
  destruct (sdk_NewChannelClient (sdk req) channelID (user req) (world s))
    as [[[c|] e0] w1] eqn:Enew; cbn beta iota zeta in H; [|discriminate].
  cbn [world trace] in H.
  destruct (apitxn.Query c _ w1) as [[t [e|]] w2] eqn:Etx in H;
    cbn beta iota zeta in H; [discriminate|].
  destruct (Unmarshal (T := peer.ProcessedTransaction) t) as [tx|] eqn:Dtx;
    [|discriminate].
  cbn [world trace] in H.
  destruct (apitxn.Query c _ w2) as [[b [e|]] w3] eqn:Eblk in H;
    cbn beta iota zeta in H; [discriminate|].
  destruct (Unmarshal (T := common.Block) b) as [block|] eqn:Dblk; [|discriminate].
  destruct (Unmarshal (T := common.Payload) _) as [payload|] eqn:Dpay in H;
    [|discriminate].
  destruct (Unmarshal (T := peer.Transaction) _) as [txActions|] eqn:Dact in H;
    [|discriminate].
  destruct (nth_error (peer.GetActions txActions) 0) as [action0|] eqn:Ea0;
    [|discriminate].
  destruct (GetPayloads action0) as [[x y] [e|]] eqn:Epl; [discriminate|].
  destruct (GetPayloads_ok _ _ _ Epl) as (ccPropPayload & respPayload & -> & ->).
  destruct (Unmarshal (T := peer.ChaincodeInvocationSpec) _)
    as [invokeSpec|] eqn:Dinv in H; [|discriminate].
  destruct (BlockHeader_Hash (common.Block_GetHeader block)) as [hash|] eqn:Eh;
    [|discriminate].
  destruct (peer.GetInput (peer.GetChaincodeSpec invokeSpec)) as [input|] eqn:Ein;
    [|discriminate].
  destruct (nth_error (peer.Args input) 0) as [arg0|] eqn:Earg; [|discriminate].
  destruct (GoHex.DecodeString (string_of_list_byte arg0)) as [callee [e|]] eqn:Ehex;
    [discriminate|].
  exists c, t, b, (common.Block_GetHeader block), hash, callee, respPayload.
  split; [exists e0, w1, w2, w3; auto|].
  split; [exists block; auto|].
  split; [assumption|].
  split.
  - exists (peer.GetActions txActions), action0, (peer.Args input), arg0.
    repeat split; try assumption.
    + exists tx, payload, txActions. auto.
    + exists ccPropPayload, invokeSpec, input. auto.
  - destruct (bytes_Equal callee zeroAddress); injection H as <- _; reflexivity.
Qed.

(** *** Receipt reconstruction *)

(** C1.  A receipt that is returned has its [ContractAddress] set to the raw
    bytes of the payload of the response payload exactly when the decoded
    first invocation argument, the callee, is the 20-byte zero address; for
    any other callee [ContractAddress] is the empty string. *)
Theorem GetTransactionReceipt_ContractAddress req param reply s r s' :
  GetTransactionReceipt req param reply s = (Returns (r, None), s') ->
  exists c t b callee respPayload,
    ledger_answers req param (world s) c t b /\
    decodes_to_call t callee respPayload /\
    (callee = zeroAddress ->
     ContractAddress r =
       string_of_list_byte
         (peer.Response_GetPayload (peer.GetResponse (Some respPayload)))) /\
    (callee <> zeroAddress -> ContractAddress r = EmptyString) /\
    (ContractAddress r <> EmptyString -> callee = zeroAddress).
Proof.
  intros H. apply GetTransactionReceipt_ok_inv in H.
  destruct H as (c & t & b & blkHeader & hash & callee & respPayload
                 & Hl & _ & _ & Hc & ->).
  exists c, t, b, callee, respPayload. cbn [ContractAddress].
  split; [assumption|]. split; [assumption|].
  destruct (bytes_Equal callee zeroAddress) eqn:E.
  - apply bytes_Equal_eq in E. repeat split; congruence.
  - assert (callee <> zeroAddress)
      by (intros Heq; apply bytes_Equal_eq in Heq; congruence).
    repeat split; congruence.
Qed.

(** C2.  A receipt that is returned echoes the identifier it was asked for
    as [TransactionHash], has the hexadecimal numeral of the hash of the
    block header as [BlockHash], the decimal numeral of the height of the
    block header as [BlockNumber], and 0 as [GasUsed] and
    [CumulativeGasUsed]. *)
Theorem GetTransactionReceipt_block_fields req param reply s r s' :
  GetTransactionReceipt req param reply s = (Returns (r, None), s') ->
  TransactionHash r = param /\
  GasUsed r = 0 /\
  CumulativeGasUsed r = 0 /\
  exists c t b blkHeader hash,
    ledger_answers req param (world s) c t b /\
    decodes_to_header b blkHeader /\
    BlockHeader_Hash blkHeader = Some hash /\
    BlockHash r = GoHex.EncodeToString hash /\
    BlockNumber r = FormatUint10 (common.BlockHeader_GetNumber blkHeader).
Proof.
  intros H. apply GetTransactionReceipt_ok_inv in H.
  destruct H as (c & t & b & blkHeader & hash & callee & respPayload
                 & Hl & Hb & Hh & _ & ->).
  cbn [TransactionHash GasUsed CumulativeGasUsed BlockHash BlockNumber].
  repeat split. exists c, t, b, blkHeader, hash. auto.
Qed.

Lemma GetTransactionReceipt_reaches_actions req param reply s c t b blkHeader actions :
  ledger_answers req param (world s) c t b ->
  decodes_to_header b blkHeader ->
  decodes_to_actions t actions ->
  exists s1,
    GetTransactionReceipt req param reply s =
    match nth_error actions 0 with
    | None => (Panics IndexOutOfRange, s1)
    | Some action0 =>
        match GetPayloads action0 with
        | (_, _, Some e) => (Returns (reply, Some e), s1)
        | (None, _, None) => (Panics NilDereference, s1)
        | (Some ccPropPayload, respPayload, None) =>
            match Unmarshal (T := peer.ChaincodeInvocationSpec)
                    (peer.Input ccPropPayload) with
            | inr e => (Returns (reply, Some e), s1)
            | inl invokeSpec =>
                match BlockHeader_Hash blkHeader with
                | None => (Panics HashPanic, s1)
                | Some hash =>
                    match peer.GetInput (peer.GetChaincodeSpec invokeSpec) with
                    | None => (Panics NilDereference, s1)
                    | Some input =>
                        match nth_error (peer.Args input) 0 with
                        | None => (Panics IndexOutOfRange, s1)
                        | Some arg0 =>
                            match GoHex.DecodeString (string_of_list_byte arg0) with
                            | (_, Some e) => (Returns (reply, Some e), s1)
                            | (callee, None) =>
                                (Returns
                                   ({| TransactionHash := param;
                                       BlockHash := GoHex.EncodeToString hash;
                                       BlockNumber :=
                                         FormatUint10
                                           (common.BlockHeader_GetNumber blkHeader);
                                       ContractAddress :=
                                         if bytes_Equal callee zeroAddress then
                                           string_of_list_byte
                                             (peer.Response_GetPayload
                                                (peer.GetResponse respPayload))
                                         else EmptyString;
                                       GasUsed := 0;
                                       CumulativeGasUsed := 0 |}, None), s1)
                            end
                        end
                    end
                end
            end
        end
    end.
Proof.
  intros (e0 & w1 & w2 & w3 & Hnew & Htx & Hblk) (block & Dblk & <-)
         (tx & payload & txActions & Dtx & Dpay & Dact & <-).
  unfold request_GetTransactionByID in Htx.
  unfold request_GetBlockByTxID in Hblk.
  run. step Hnew. step Htx. step Dtx. step Hblk.
  step Dblk. step Dpay. step Dact.
  eexists.
  destruct (nth_error (peer.GetActions txActions) 0) as [action0|]; [|reflexivity].
  destruct (GetPayloads action0) as [[[ccPropPayload|] respPayload] [e|]];
    try reflexivity.
  destruct (Unmarshal (T := peer.ChaincodeInvocationSpec) _); [|reflexivity].
  destruct (BlockHeader_Hash _); [|reflexivity].
  destruct (peer.GetInput _); [|reflexivity].
  destruct (nth_error (peer.Args _) 0); [|reflexivity].
  destruct (GoHex.DecodeString _) as [callee [e|]]; [reflexivity|].
  destruct (bytes_Equal callee zeroAddress); reflexivity.
Qed.

(** C3.  When the decoded transaction has an action list with zero entries,
    the receipt lookup does not return an error: it stops in a run-time
    panic, the index 0 being out of range. *)
Theorem GetTransactionReceipt_empty_actions_panics req param reply s c t b blkHeader :
  ledger_answers req param (world s) c t b ->
  decodes_to_header b blkHeader ->
  decodes_to_actions t [] ->
  exists s', GetTransactionReceipt req param reply s = (Panics IndexOutOfRange, s').
Proof.
  intros Hl Hb Ha.
  destruct (GetTransactionReceipt_reaches_actions req param reply s c t b
              blkHeader [] Hl Hb Ha) as [s1 H].
  exists s1. exact H.
Qed.

(** An invocation with an empty argument list stops the lookup in the same
    way. *)
Lemma GetTransactionReceipt_empty_args_panics req param reply s c t b blkHeader hash
    actions action0 respPayload :
  ledger_answers req param (world s) c t b ->
  decodes_to_header b blkHeader ->
  BlockHeader_Hash blkHeader = Some hash ->
  decodes_to_actions t actions ->
  nth_error actions 0 = Some action0 ->
  decodes_to_invocation action0 respPayload [] ->
  exists s', GetTransactionReceipt req param reply s = (Panics IndexOutOfRange, s').
Proof.
  intros Hl Hb Hh Ha H0 (ccPropPayload & invokeSpec & input & Hp & Hi & Hin & Hargs).
  destruct (GetTransactionReceipt_reaches_actions req param reply s c t b
              blkHeader actions Hl Hb Ha) as [s1 H].
  exists s1. rewrite H, H0, Hp, Hi, Hh, Hin, Hargs. reflexivity.
Qed.

(** A missing extension is returned as an error, and [*reply] is left as it
    was. *)
Lemma GetTransactionReceipt_missing_extension req param reply s c t b blkHeader
    actions action0 :
  ledger_answers req param (world s) c t b ->
  decodes_to_header b blkHeader ->
  decodes_to_actions t actions ->
  nth_error actions 0 = Some action0 ->
  GetPayloads action0 = (None, None, Some "response payload is missing extension") ->
  exists s',
    GetTransactionReceipt req param reply s =
    (Returns (reply, Some "response payload is missing extension"), s').
Proof.
  intros Hl Hb Ha H0 Hp.
  destruct (GetTransactionReceipt_reaches_actions req param reply s c t b
              blkHeader actions Hl Hb Ha) as [s1 H].
  exists s1. rewrite H, H0, Hp. reflexivity.
Qed.

(** *** Request translation *)

(** C4.  A failing ledger query is not returned by [GetCode]: the call
    returns a nil error, with the bytes that came with the failure as its
    result. *)
Theorem GetCode_swallows_query_error req args reply s c w1 value e w2 :
  sdk_NewChannelClient (sdk req) channelID (user req) (world s) = ((Some c, None), w1) ->
  apitxn.Query c
    {| apitxn.ChaincodeID := "evmscc";
       apitxn.Fcn := "getCode";
       apitxn.Args := [list_byte_of_string (Strip0xFromHex args)] |} w1
    = ((value, Some e), w2) ->
  exists s', GetCode req args reply s = (Returns (string_of_list_byte value, None), s').
Proof. intros H1 H2. run. step H1. step H2. close. eauto. Qed.

(** C5.  The result of a [GetCode] that returns is the bytes the ledger
    query returned, as they are, with nothing put in front; the result of a
    [Call] that returns without error is "0x" followed by the hexadecimal
    numeral of the bytes the ledger query returned. *)
Theorem GetCode_raw_and_Call_hex req :
  (forall args reply s r s',
     GetCode req args reply s = (Returns (r, None), s') ->
     exists c w1 value qerr w2,
       sdk_NewChannelClient (sdk req) channelID (user req) (world s)
         = ((Some c, None), w1) /\
       apitxn.Query c
         {| apitxn.ChaincodeID := "evmscc";
            apitxn.Fcn := "getCode";
            apitxn.Args := [list_byte_of_string (Strip0xFromHex args)] |} w1
         = ((value, qerr), w2) /\
       r = string_of_list_byte value) /\
  (forall params reply s r s',
     Call req params reply s = (Returns (r, None), s') ->
     exists c w1 value w2,
       sdk_NewChannelClient (sdk req) channelID (user req) (world s)
         = ((Some c, None), w1) /\
       apitxn.Query c
         {| apitxn.ChaincodeID := "evmscc";
            apitxn.Fcn := Strip0xFromHex (To params);
            apitxn.Args := [list_byte_of_string (Strip0xFromHex (Data params))] |} w1
         = ((value, None), w2) /\
       r = ("0x" ++ GoHex.EncodeToString value)%string).
Proof.
  split.
  - intros args reply s r s' H. run_in H.
    destruct (sdk_NewChannelClient (sdk req) channelID (user req) (world s))
      as [[[c|] [e0|]] w1] eqn:Enew; cbn beta iota zeta in H; try discriminate.
    cbn [world trace] in H.
    destruct (apitxn.Query c _ w1) as [[value qerr] w2] eqn:Eq in H.
    cbn beta iota zeta in H. destruct (apitxn.Close c _) in H.
    injection H as <- _. exists c, w1, value, qerr, w2. auto.
  - intros params reply s r s' H. run_in H.
    destruct (sdk_NewChannelClient (sdk req) channelID (user req) (world s))
      as [[[c|] [e0|]] w1] eqn:Enew; cbn beta iota zeta in H; try discriminate.
    cbn [world trace] in H.
    destruct (apitxn.Query c _ w1) as [[value [e|]] w2] eqn:Eq in H;
      cbn beta iota zeta in H; destruct (apitxn.Close c _) in H;
      [discriminate|].
    injection H as <- _. exists c, w1, value, w2. auto.
Qed.


(** C8.  When no channel client can be had, [Call] and [SendTransaction]
    return the error; [GetCode] and [Accounts] stop in [log.Panic]; and
    [GetTransactionReceipt] does not read the error: with the nil client
    that comes with it, it stops in a run-time panic at its first query. *)
Theorem connection_failure_by_operation req s oc e w1 :
  sdk_NewChannelClient (sdk req) channelID (user req) (world s) = ((oc, Some e), w1) ->
  (forall params reply,
     exists s', Call req params reply s = (Returns (reply, Some e), s')) /\
  (forall params reply,
     exists s', SendTransaction req params reply s = (Returns (reply, Some e), s')) /\
  (forall args reply,
     exists s', GetCode req args reply s
                = (Panics (LogPanic ("error creating client" ++ e)%string), s')) /\
  (forall params reply,
     exists s', Accounts ToLower req params reply s
                = (Panics (LogPanic ("error creating client" ++ e)%string), s')) /\
  (forall param reply,
     oc = None ->
     exists s', GetTransactionReceipt req param reply s = (Panics NilDereference, s')).
Proof.
  intros H. repeat split; intros; run; step H; subst; eauto.
Qed.

(** *** The channel client *)

(** C9.  [GetTransactionReceipt] never releases the channel client it has
    acquired: whatever the way it ends, the events it adds to the trace
    start with the acquisition and hold no release. *)
Theorem GetTransactionReceipt_never_closes req param reply s c e0 w1 r s' :
  sdk_NewChannelClient (sdk req) channelID (user req) (world s) = ((Some c, e0), w1) ->
  GetTransactionReceipt req param reply s = (r, s') ->
  exists evs,
    adds_events s s' (EvNewChannelClient channelID (user req) (Some c) e0 :: evs) /\
    forall ev, In ev evs -> ~ is_Close ev.
Proof.
  clear ToLower. intros Hnew H. run_in H. rewrite Hnew in H.
  cbn beta iota zeta in H. cbn [world trace] in H.
  destruct (apitxn.Query c _ w1) as [[t err1] w2] in H.
  cbn beta iota zeta in H. cbn [world trace] in H.
  assert (Hclose : forall evs : list (Event C),
            (forall ev, In ev evs -> exists c' q, ev = EvQuery c' q) ->
            forall ev, In ev evs -> ~ is_Close ev).
  { intros evs Hq ev Hin. destruct (Hq ev Hin) as (c' & q & ->). simpl. tauto. }
  destruct err1 as [e|];
    [injection H as _ <-; eexists; split;
       [unfold adds_events; cbn [trace]; rewrite <- !app_assoc; reflexivity
       |apply Hclose; simpl; intros ev [<-|[]]; eauto]|].
  destruct (Unmarshal (T := peer.ProcessedTransaction) t);
    [|injection H as _ <-; eexists; split;
       [unfold adds_events; cbn [trace]; rewrite <- !app_assoc; reflexivity
       |apply Hclose; simpl; intros ev [<-|[]]; eauto]].
  cbn beta iota zeta in H. cbn [world trace] in H.
  destruct (apitxn.Query c _ w2) as [[b err2] w3] in H.
  cbn beta iota zeta in H. cbn [world trace] in H.
  repeat split_match H;
    injection H as _ <-; eexists; (split;
       [unfold adds_events; cbn [trace]; rewrite <- !app_assoc; reflexivity
       |apply Hclose; simpl; intros ev [<-|[<-|[]]]; eauto]).
Qed.

(** The other four operations release the client they have acquired,
    whatever the way they end. *)
Lemma other_operations_close req s c w1 :
  sdk_NewChannelClient (sdk req) channelID (user req) (world s) = ((Some c, None), w1) ->
  (forall args reply r s',
     GetCode req args reply s = (r, s') ->
     exists evs, adds_events s s' (evs ++ [EvClose c])) /\
  (forall params reply r s',
     Call req params reply s = (r, s') ->
     exists evs, adds_events s s' (evs ++ [EvClose c])) /\
  (forall params reply r s',
     SendTransaction req params reply s = (r, s') ->
     exists evs, adds_events s s' (evs ++ [EvClose c])) /\
  (forall params reply r s',
     Accounts ToLower req params reply s = (r, s') ->
     exists evs, adds_events s s' (evs ++ [EvClose c])).
Proof.
  intros Hnew. repeat split; intros until s'; intros H; run_in H;
    rewrite Hnew in H; cbn beta iota zeta in H; cbn [world trace] in H;
    try (destruct (String.eqb (To params) "") in H);
    match type of H with
    | context [apitxn.Query ?c ?q ?w] =>
        destruct (apitxn.Query c q w) as [[? [?|]] ?]
    | context [apitxn.ExecuteTx ?c ?q ?w] =>
        destruct (apitxn.ExecuteTx c q w) as [[[? ?] [?|]] ?]
    end;
    cbn beta iota zeta in H; cbn [world trace] in H;
    match type of H with
    | context [apitxn.Close ?c ?w] => destruct (apitxn.Close c w)
    end;
    injection H as _ <-;
    unfold adds_events; cbn [trace]; rewrite <- !app_assoc;
    eexists [_; _]; reflexivity.
Qed.

(** C10.  [Strip0xFromHex] gives the empty string for every string that
    ends with "0x"; so a [Call] or a [SendTransaction] whose [params.To] is
    "0x" puts its query or its invocation to the ledger with the empty
    string as function name, and its outcome is what the ledger answers to
    that: the result when the answer has no error, the error of the ledger
    otherwise, and no failure of its own. *)
Theorem empty_function_name_of_0x req :
  (forall pre, Strip0xFromHex (pre ++ "0x") = EmptyString) /\
  (forall params reply s c w1 value qerr w2,
     To params = "0x" ->
     sdk_NewChannelClient (sdk req) channelID (user req) (world s)
       = ((Some c, None), w1) ->
     apitxn.Query c
       {| apitxn.ChaincodeID := "evmscc";
          apitxn.Fcn := EmptyString;
          apitxn.Args := [list_byte_of_string (Strip0xFromHex (Data params))] |} w1
       = ((value, qerr), w2) ->
     exists s',
       Call req params reply s
         = (Returns match qerr with
                    | None => (("0x" ++ GoHex.EncodeToString value)%string, None)
                    | Some e => (reply, Some e)
                    end, s') /\
       adds_events s s'
         [EvNewChannelClient channelID (user req) (Some c) None;
          EvQuery c
            {| apitxn.ChaincodeID := "evmscc";
               apitxn.Fcn := EmptyString;
               apitxn.Args := [list_byte_of_string (Strip0xFromHex (Data params))] |};
          EvClose c]) /\
  (forall params reply s c w1 payload txID err w2,
     To params = "0x" ->
     sdk_NewChannelClient (sdk req) channelID (user req) (world s)
       = ((Some c, None), w1) ->
     apitxn.ExecuteTx c
       {| apitxn.Tx_ChaincodeID := "evmscc";
          apitxn.Tx_Fcn := EmptyString;
          apitxn.Tx_Args := [list_byte_of_string (Strip0xFromHex (Data params))] |} w1
       = ((payload, txID, err), w2) ->
     exists s',
       SendTransaction req params reply s
         = (Returns match err with
                    | None => (apitxn.ID txID, None)
                    | Some e => (reply, Some e)
                    end, s') /\
       adds_events s s'
         [EvNewChannelClient channelID (user req) (Some c) None;
          EvExecuteTx c
            {| apitxn.Tx_ChaincodeID := "evmscc";
               apitxn.Tx_Fcn := EmptyString;
               apitxn.Tx_Args := [list_byte_of_string (Strip0xFromHex (Data params))] |};
          EvClose c]).
Proof.
  split; [apply GoStringsFacts.Strip0xFromHex_suffix_0x|].
  split.
  - intros params reply s c w1 value qerr w2 HTo Hnew Hq.
    run. step Hnew. rewrite HTo.
    change (Strip0xFromHex "0x") with EmptyString.
    step Hq. destruct qerr as [e|]; cbn beta iota zeta; cbn [world trace]; close;
      eexists; (split; [reflexivity|]); cbn [trace]; now rewrite <- !app_assoc.
  - intros params reply s c w1 payload txID err w2 HTo Hnew Hx.
    run. step Hnew. rewrite HTo. cbn [String.eqb]. cbn beta iota. rewrite ?HTo.
    change (Strip0xFromHex "0x") with EmptyString.
    step Hx. destruct err as [e|]; cbn beta iota zeta; cbn [world trace]; close;
      eexists; (split; [reflexivity|]); cbn [trace]; now rewrite <- !app_assoc.
Qed.

End ServiceFacts.

(** ** [Strip0xFromHex] *)

(** C7.  [Strip0xFromHex s] is the part of [s] that follows the last
    occurrence of "0x", and [s] itself when "0x" does not occur in [s]; so
    "0x1234" gives "1234", "1234" gives "1234" and "0xab0xcd" gives "cd". *)
Theorem Strip0xFromHex_after_last_0x :
  forall s,
    (forall i, last_0x_at i s -> Strip0xFromHex s = GoStrings.slice_from (i + 2) s) /\
    ((forall i, ~ occurs_0x_at i s) -> Strip0xFromHex s = s) /\
    Strip0xFromHex "0x1234" = "1234" /\
    Strip0xFromHex "1234" = "1234" /\
    Strip0xFromHex "0xab0xcd" = "cd".
Proof.
  intros s. split; [|split].
  - intros i. apply GoStringsFacts.Strip0xFromHex_last.
  - apply GoStringsFacts.Strip0xFromHex_absent.
  - repeat split; reflexivity.
Qed.

(** Every string has a last occurrence of "0x" or none at all, so the two
    cases of C7 cover every string. *)
Lemma last_0x_at_or_absent s :
  (exists i, last_0x_at i s) \/ (forall i, ~ occurs_0x_at i s).
Proof.
  induction s as [|a s IH].
  - right. intros i [H _]. destruct i; discriminate.
  - destruct IH as [[i [Hi Hmax]]|Habs].
    + left. exists (S i). split.
      * now apply GoStringsFacts.occurs_0x_at_S.
      * intros [|j] Hj; [lia|].
        apply GoStringsFacts.occurs_0x_at_S in Hj. apply Hmax in Hj. lia.
    + destruct (String.prefix "0x" (String a s)) eqn:P.
      * left. exists 0. split; [now apply GoStringsFacts.prefix_0x_iff|].
        intros [|j] Hj; [lia|].
        apply GoStringsFacts.occurs_0x_at_S in Hj. now apply Habs in Hj.
      * right. intros [|j] Hj.
        -- apply GoStringsFacts.prefix_0x_iff in Hj. congruence.
        -- apply GoStringsFacts.occurs_0x_at_S in Hj. now apply Habs in Hj.
Qed.

(** ** The numerals *)

(** The decimal numeral of [FormatUint10] reads back as the number. *)
Lemma FormatUint10_reads_back n :
  option_map N.of_uint (NilEmpty.uint_of_string (FormatUint10 n)) = Some n.
Proof.
  unfold FormatUint10. rewrite NilEmpty.usu. simpl.
  now rewrite DecimalN.Unsigned.of_to.
Qed.

Lemma zero_address_hex_encodes : GoHex.EncodeToString zeroAddress = zero_address_hex.
Proof. reflexivity. Qed.

Lemma zero_address_hex_decodes :
  GoHex.DecodeString zero_address_hex = (zeroAddress, None).
Proof. reflexivity. Qed.

(** ** The properties on the small ledger *)

Lemma GetTransactionReceipt_ContractAddress_witness :
  exists c t b callee respPayload,
    ledger_answers (CC := Sample.client) Sample.service "abc"
      (world (Sample.holding x04)) c t b /\
    decodes_to_call (FP := Sample.protos) t callee respPayload /\
    (callee = zeroAddress ->
     ContractAddress (Sample.receipt7 (string_of_list_byte Sample.created)) =
       string_of_list_byte
         (peer.Response_GetPayload (peer.GetResponse (Some respPayload)))) /\
    (callee <> zeroAddress ->
     ContractAddress (Sample.receipt7 (string_of_list_byte Sample.created))
       = EmptyString) /\
    (ContractAddress (Sample.receipt7 (string_of_list_byte Sample.created))
       <> EmptyString -> callee = zeroAddress).
Proof.
  apply (GetTransactionReceipt_ContractAddress (CC := Sample.client)
           (FP := Sample.protos) Sample.service "abc" Sample.no_receipt
           (Sample.holding x04)
           (Sample.receipt7 (string_of_list_byte Sample.created))
           (snd (Sample.receipt_of x04))).
  vm_compute. reflexivity.
Defined.

Lemma GetTransactionReceipt_block_fields_witness :
  TransactionHash (Sample.receipt7 "") = "abc" /\
  GasUsed (Sample.receipt7 "") = 0 /\
  CumulativeGasUsed (Sample.receipt7 "") = 0 /\
  exists c t b blkHeader hash,
    ledger_answers (CC := Sample.client) Sample.service "abc"
      (world (Sample.holding x05)) c t b /\
    decodes_to_header (FP := Sample.protos) b blkHeader /\
    BlockHeader_Hash (FabricProtos := Sample.protos) blkHeader = Some hash /\
    BlockHash (Sample.receipt7 "") = GoHex.EncodeToString hash /\
    BlockNumber (Sample.receipt7 "")
      = FormatUint10 (common.BlockHeader_GetNumber blkHeader).
Proof.
  apply (GetTransactionReceipt_block_fields (CC := Sample.client)
           (FP := Sample.protos) Sample.service "abc" Sample.no_receipt
           (Sample.holding x05) (Sample.receipt7 "")
           (snd (Sample.receipt_of x05))).
  vm_compute. reflexivity.
Defined.

Lemma Sample_ledger_answers k :
  ledger_answers (CC := Sample.client) Sample.service "abc"
    (world (Sample.holding k)) 1 [k] [x07].
Proof. unfold ledger_answers. do 4 eexists. repeat split; reflexivity. Defined.

Lemma Sample_decodes_to_header :
  decodes_to_header (FP := Sample.protos) [x07] (Some Sample.header7).
Proof. eexists. split; reflexivity. Defined.

Lemma GetTransactionReceipt_empty_actions_panics_witness :
  ledger_answers (CC := Sample.client) Sample.service "abc"
    (world (Sample.holding x00)) 1 [x00] [x07] /\
  decodes_to_header (FP := Sample.protos) [x07] (Some Sample.header7) /\
  decodes_to_actions (FP := Sample.protos) [x00] [] /\
  exists s', Sample.receipt_of x00 = (Panics IndexOutOfRange, s').
Proof.
  assert (Ha : decodes_to_actions (FP := Sample.protos) [x00] []).
  { do 3 eexists. repeat split; reflexivity. }
  repeat split;
    [apply Sample_ledger_answers | apply Sample_decodes_to_header | exact Ha |].
  exact (GetTransactionReceipt_empty_actions_panics (CC := Sample.client)
           (FP := Sample.protos) Sample.service "abc" Sample.no_receipt
           (Sample.holding x00) 1 [x00] [x07] (Some Sample.header7)
           (Sample_ledger_answers x00) Sample_decodes_to_header Ha).
Defined.

Lemma GetCode_swallows_query_error_witness :
  exists s',
    GetCode (CC := Sample.client) Sample.service "0xabc" "" Sample.refusing
    = (Returns ("stale", None), s').
Proof.
  eapply (GetCode_swallows_query_error (CC := Sample.client) Sample.service
            "0xabc" "" Sample.refusing 1 _ (list_byte_of_string "stale")
            "query refused" _);
    reflexivity.
Defined.

Lemma GetCode_raw_and_Call_hex_witness :
  (exists c w1 value qerr w2,
     sdk_NewChannelClient (sdk Sample.service) channelID (user Sample.service)
       (world (Sample.holding x05)) = ((Some c, None), w1) /\
     apitxn.Query (ChannelClient := Sample.client) c
       {| apitxn.ChaincodeID := "evmscc";
          apitxn.Fcn := "getCode";
          apitxn.Args := [list_byte_of_string (Strip0xFromHex "0xabc")] |} w1
       = ((value, qerr), w2) /\
     "ab" = string_of_list_byte value) /\
  (exists c w1 value w2,
     sdk_NewChannelClient (sdk Sample.service) channelID (user Sample.service)
       (world (Sample.holding x05)) = ((Some c, None), w1) /\
     apitxn.Query (ChannelClient := Sample.client) c
       {| apitxn.ChaincodeID := "evmscc";
          apitxn.Fcn := Strip0xFromHex (To (Sample.params_to "0x12"));
          apitxn.Args :=
            [list_byte_of_string (Strip0xFromHex (Data (Sample.params_to "0x12")))] |}
       w1
       = ((value, None), w2) /\
     "0x6162" = ("0x" ++ GoHex.EncodeToString value)%string).
Proof.
  split.
  - apply (proj1 (GetCode_raw_and_Call_hex (CC := Sample.client) Sample.service)
             "0xabc" "" (Sample.holding x05) "ab"
             (snd (GetCode (CC := Sample.client) Sample.service "0xabc" ""
                     (Sample.holding x05)))).
    vm_compute. reflexivity.
  - apply (proj2 (GetCode_raw_and_Call_hex (CC := Sample.client) Sample.service)
             (Sample.params_to "0x12") "" (Sample.holding x05) "0x6162"
             (snd (Call (CC := Sample.client) Sample.service
                     (Sample.params_to "0x12") "" (Sample.holding x05)))).
    vm_compute. reflexivity.
Defined.



(** With a client whose [ExecuteTx] returns once the transaction is
    submitted, the transaction is still pending when the call returns. *)
Lemma SendTransaction_returns_before_commitment :
  exists s',
    SendTransaction (CC := Sample.gateway) Sample.chain_service
      (Sample.params_to "") "" Sample.chain_start = (Returns ("tx-1", None), s') /\
    In "tx-1" (Sample.pending (world s')) /\
    ~ In "tx-1" (Sample.committed (world s')).
Proof.
  eexists. split; [reflexivity|]. split.
  - left. reflexivity.
  - intros [].
Qed.

Lemma Strip0xFromHex_after_last_0x_witness :
  last_0x_at 4 "0xab0xcd" /\
  Strip0xFromHex "0xab0xcd" = GoStrings.slice_from (4 + 2) "0xab0xcd".
Proof.
  assert (H : last_0x_at 4 "0xab0xcd").
  { split; [split; reflexivity|].
    intros j [H0 H1].
    do 7 (destruct j as [|j]; [first [lia | discriminate H0 | discriminate H1]|]).
    discriminate H1. }
  split; [exact H|].
  exact (proj1 (Strip0xFromHex_after_last_0x "0xab0xcd") 4 H).
Defined.

Lemma connection_failure_by_operation_witness :
  (forall params reply,
     exists s',
       Call (CC := Sample.client) Sample.service params reply Sample.unreachable
       = (Returns (reply, Some "no channel"), s')) /\
  (forall params reply,
     exists s',
       SendTransaction (CC := Sample.client) Sample.service params reply
         Sample.unreachable
       = (Returns (reply, Some "no channel"), s')) /\
  (forall args reply,
     exists s',
       GetCode (CC := Sample.client) Sample.service args reply Sample.unreachable
       = (Panics (LogPanic "error creating clientno channel"), s')) /\
  (forall params reply,
     exists s',
       Accounts (CC := Sample.client) Sample.ToLower Sample.service params reply
         Sample.unreachable
       = (Panics (LogPanic "error creating clientno channel"), s')) /\
  (forall param reply,
     @None nat = None ->
     exists s',
       GetTransactionReceipt (CC := Sample.client) (FP := Sample.protos)
         Sample.service param reply Sample.unreachable
       = (Panics NilDereference, s')).
Proof.
  eapply (connection_failure_by_operation (CC := Sample.client)
            (FP := Sample.protos) Sample.ToLower Sample.service
            Sample.unreachable None "no channel" _).
  reflexivity.
Defined.

Lemma GetTransactionReceipt_never_closes_witness :
  exists evs,
    adds_events (Sample.holding x04) (snd (Sample.receipt_of x04))
      (EvNewChannelClient channelID "User1" (Some 1) None :: evs) /\
    forall ev, In ev evs -> ~ is_Close ev.
Proof.
  eapply (GetTransactionReceipt_never_closes (CC := Sample.client)
            (FP := Sample.protos) Sample.service "abc" Sample.no_receipt
            (Sample.holding x04) 1 None _ (fst (Sample.receipt_of x04))
            (snd (Sample.receipt_of x04))).
  - reflexivity.
  - vm_compute. reflexivity.
Defined.

Lemma empty_function_name_of_0x_witness :
  Strip0xFromHex ("0x12" ++ "0x") = EmptyString /\
  (exists s',
     Call (CC := Sample.client) Sample.service (Sample.params_to "0x") ""
       (Sample.holding x05) = (Returns ("0x6162", None), s') /\
     adds_events (Sample.holding x05) s'
       [EvNewChannelClient channelID "User1" (Some 1) None;
        EvQuery 1
          {| apitxn.ChaincodeID := "evmscc";
             apitxn.Fcn := EmptyString;
             apitxn.Args := [list_byte_of_string "6060"] |};
        EvClose 1]) /\
  (exists s',
     SendTransaction (CC := Sample.client) Sample.service (Sample.params_to "0x")
       "before" Sample.refusing
     = (Returns ("before", Some "invoke refused"), s') /\
     adds_events Sample.refusing s'
       [EvNewChannelClient channelID "User1" (Some 1) None;
        EvExecuteTx 1
          {| apitxn.Tx_ChaincodeID := "evmscc";
             apitxn.Tx_Fcn := EmptyString;
             apitxn.Tx_Args := [list_byte_of_string "6060"] |};
        EvClose 1]).
Proof.
  destruct (empty_function_name_of_0x (CC := Sample.client) Sample.service)
    as (Hs & Hc & Ht).
  split; [apply Hs|]. split.
  - eapply (Hc (Sample.params_to "0x") "" (Sample.holding x05) 1 _
              (list_byte_of_string "ab") None _);
      reflexivity.
  - eapply (Ht (Sample.params_to "0x") "before" Sample.refusing 1 _ []
              {| apitxn.ID := "" |} (Some "invoke refused") _);
      reflexivity.
Defined.

(** * Further properties *)

(** ** [Strip0xFromHex], continued *)

Module StripFacts.
Import GoStrings GoStringsFacts.

Lemma append_assoc_string : forall a b c : string, ((a ++ b) ++ c = a ++ (b ++ c))%string.
Proof. induction a as [|x a IH]; intros b c; simpl; [reflexivity | now rewrite IH]. Qed.

Lemma slice_from_append : forall a b : string,
  slice_from (String.length a) (a ++ b) = b.
Proof. induction a as [|x a IH]; intros b; simpl; [reflexivity | apply IH]. Qed.

Lemma slice_to_from : forall n s, (slice_to n s ++ slice_from n s)%string = s.
Proof.
  induction n as [|n IH]; intros s; [reflexivity|].
  destruct s as [|c s]; simpl; [reflexivity | now rewrite IH].
Qed.

Lemma get_append_head : forall (a b : string) i,
  i < String.length a -> String.get i (a ++ b) = String.get i a.
Proof.
  induction a as [|x a IH]; intros b i H; simpl in *; [lia|].
  destruct i as [|i]; [reflexivity|]. apply IH. lia.
Qed.

(** No "0x" is left in what [Strip0xFromHex] returns. *)
Lemma Strip0xFromHex_clean s j : ~ occurs_0x_at j (Strip0xFromHex s).
Proof.
  destruct (last_0x_at_or_absent s) as [[i Hi]|Habs].
  - rewrite (Strip0xFromHex_last _ _ Hi). intros Hj.
    apply occurs_0x_at_slice_from in Hj. destruct Hi as [_ Hmax].
    apply Hmax in Hj. lia.
  - rewrite (Strip0xFromHex_absent _ Habs). apply Habs.
Qed.

(** What precedes an occurrence of "0x", and the occurrence, are dropped. *)
Lemma Strip0xFromHex_drops_prefix pre post :
  Strip0xFromHex (pre ++ "0x" ++ post) = Strip0xFromHex post.
Proof.
  set (n := String.length pre).
  assert (Hlen : String.length (pre ++ "0x") = n + 2)
    by (rewrite length_append; reflexivity).
  assert (Hget : forall k, String.get (n + 2 + k) (pre ++ "0x" ++ post) = String.get k post).
  { intros k. rewrite <- append_assoc_string, <- Hlen. apply get_append_tail. }
  assert (Hat : occurs_0x_at n (pre ++ "0x" ++ post)).
  { unfold n. split.
    - now rewrite <- (Nat.add_0_r (String.length pre)), get_append_tail.
    - replace (S (String.length pre)) with (String.length pre + 1) by lia.
      now rewrite get_append_tail. }
  assert (Hpost : forall j, occurs_0x_at j (pre ++ "0x" ++ post) -> n + 2 <= j ->
                            occurs_0x_at (j - (n + 2)) post).
  { intros j [H0 H1] Hj. split.
    - rewrite <- Hget. now replace (n + 2 + (j - (n + 2))) with j by lia.
    - rewrite <- Hget. now replace (n + 2 + S (j - (n + 2))) with (S j) by lia. }
  assert (Hnot : ~ occurs_0x_at (S n) (pre ++ "0x" ++ post)).
  { intros [H0 _]. destruct Hat as [_ Hx]. congruence. }
  assert (Hrest : slice_from (n + 2) (pre ++ "0x" ++ post) = post).
  { rewrite <- append_assoc_string, <- Hlen. apply slice_from_append. }
  destruct (last_0x_at_or_absent post) as [[i [Hi Hmax]]|Habs].
  - rewrite (Strip0xFromHex_last post i (conj Hi Hmax)).
    rewrite (Strip0xFromHex_last (pre ++ "0x" ++ post) (n + 2 + i)).
    + replace (n + 2 + i + 2) with ((n + 2) + (i + 2)) by lia.
      now rewrite slice_from_add, Hrest.
    + split.
      * destruct Hi as [H0 H1]. split; [now rewrite Hget|].
        replace (S (n + 2 + i)) with (n + 2 + S i) by lia. now rewrite Hget.
      * intros j Hj. destruct (Nat.le_gt_cases (n + 2) j) as [Hge|Hlt]; [|lia].
        apply Hpost in Hj; [|assumption]. apply Hmax in Hj. lia.
  - rewrite (Strip0xFromHex_absent post Habs).
    rewrite (Strip0xFromHex_last (pre ++ "0x" ++ post) n); [assumption|].
    split; [assumption|].
    intros j Hj. destruct (Nat.le_gt_cases (n + 2) j) as [Hge|Hlt].
    + apply Hpost in Hj; [|assumption]. now apply Habs in Hj.
    + destruct (Nat.eq_dec j (S n)) as [->|]; [now apply Hnot in Hj | lia].
Qed.

Lemma slice_from_occurrence : forall m s,
  occurs_0x_at m s ->
  slice_from m s = String "0" (String "x" (slice_from (m + 2) s)).
Proof.
  induction m as [|m IH]; intros s [H0 H1].
  - destruct s as [|a [|b s]]; simpl in H0, H1; try discriminate.
    injection H0 as ->. injection H1 as ->. reflexivity.
  - destruct s as [|a s]; [discriminate H0|].
    apply (IH s). split; assumption.
Qed.

Lemma concat_cons sep (x : string) l :
  l <> [] -> String.concat sep (x :: l) = (x ++ sep ++ String.concat sep l)%string.
Proof. destruct l; [congruence | reflexivity]. Qed.

Lemma genSplit_loop_join : forall turns s,
  String.concat "0x" (genSplit_loop (Count_loop turns s "0x") s "0x") = s.
Proof.
  induction turns as [|turns IH]; intros s; [reflexivity|].
  cbn [Count_loop]. destruct (Index s "0x") as [m|] eqn:E; [|reflexivity].
  cbn [genSplit_loop]. rewrite E.
  rewrite concat_cons by apply genSplit_loop_nonempty.
  rewrite IH. change (String.length "0x") with 2.
  destruct (Index_Some _ _ E) as [Hm _].
  change ("0x" ++ slice_from (m + 2) s)%string
    with (String "0" (String "x" (slice_from (m + 2) s))).
  rewrite <- (slice_from_occurrence m s Hm). apply slice_to_from.
Qed.

End StripFacts.

(** X1.  What [Strip0xFromHex] returns holds no "0x": [strings.Index] finds
    none in it. *)
Theorem Strip0xFromHex_result_has_no_0x :
  forall s, GoStrings.Index (Strip0xFromHex s) "0x" = None.
Proof.
  intros s. apply GoStringsFacts.Index_None_of_absent.
  intros j. apply StripFacts.Strip0xFromHex_clean.
Qed.

(** X2.  [Strip0xFromHex] is idempotent. *)
Theorem Strip0xFromHex_idempotent :
  forall s, Strip0xFromHex (Strip0xFromHex s) = Strip0xFromHex s.
Proof.
  intros s. apply GoStringsFacts.Strip0xFromHex_absent.
  intros j. apply StripFacts.Strip0xFromHex_clean.
Qed.

(** X3.  What stands before an occurrence of "0x" does not count: the
    result for [pre ++ "0x" ++ post] is the result for [post].  So a string
    and the same string with "0x" in front give the same result. *)
Theorem Strip0xFromHex_ignores_up_to_0x :
  forall pre post,
    Strip0xFromHex (pre ++ "0x" ++ post) = Strip0xFromHex post /\
    Strip0xFromHex ("0x" ++ post) = Strip0xFromHex post.
Proof.
  intros pre post. split.
  - apply StripFacts.Strip0xFromHex_drops_prefix.
  - apply (StripFacts.Strip0xFromHex_drops_prefix EmptyString post).
Qed.

(** X19.  The pieces into which "0x" splits a string, joined again with
    "0x" between them, are the string: the split loses nothing, and
    [Strip0xFromHex] returns the last of these pieces. *)
Theorem Split_0x_joins_back :
  forall s,
    String.concat "0x" (GoStrings.Split s "0x") = s /\
    Strip0xFromHex s = List.last (GoStrings.Split s "0x") EmptyString.
Proof.
  intros s. split.
  - apply StripFacts.genSplit_loop_join.
  - unfold Strip0xFromHex. cbv zeta.
    generalize (GoStringsFacts.Split_nonempty s "0x").
    generalize (GoStrings.Split s "0x") as l.
    induction l as [|x l IH]; intros Hne; [congruence|].
    destruct l as [|y l]; [reflexivity|].
    rewrite GoStringsFacts.nth_last_cons by discriminate.
    rewrite IH by discriminate. reflexivity.
Qed.

(** X4.  [Strip0xFromHex] returns a suffix of its argument, so never a
    longer string. *)
Theorem Strip0xFromHex_is_suffix :
  forall s,
    (exists pre, s = (pre ++ Strip0xFromHex s)%string) /\
    String.length (Strip0xFromHex s) <= String.length s.
Proof.
  intros s.
  assert (H : exists pre, s = (pre ++ Strip0xFromHex s)%string).
  { destruct (last_0x_at_or_absent s) as [[i Hi]|Habs].
    - rewrite (GoStringsFacts.Strip0xFromHex_last _ _ Hi).
      exists (GoStrings.slice_to (i + 2) s).
      now rewrite StripFacts.slice_to_from.
    - rewrite (GoStringsFacts.Strip0xFromHex_absent _ Habs).
      now exists EmptyString. }
  split; [exact H|].
  destruct H as [pre H]. rewrite H at 2.
  rewrite GoStringsFacts.length_append. lia.
Qed.

(** ** Hexadecimal numerals *)

Module HexFacts.
Import GoHex.

Lemma nibbles_of_byte v :
  fromHexChar (hexdigit (N.shiftr (Byte.to_N v) 4)) = Some (N.shiftr (Byte.to_N v) 4) /\
  fromHexChar (hexdigit (N.land (Byte.to_N v) 15)) = Some (N.land (Byte.to_N v) 15) /\
  byte_of_nibbles (N.shiftr (Byte.to_N v) 4) (N.land (Byte.to_N v) 15) = v.
Proof. destruct v; vm_compute; repeat split. Qed.

(** Decoding a numeral that [EncodeToString] wrote gives the bytes back. *)
Lemma DecodeString_EncodeToString : forall src,
  DecodeString (EncodeToString src) = (src, None).
Proof.
  induction src as [|v src IH]; [reflexivity|].
  cbn [EncodeToString DecodeString].
  destruct (nibbles_of_byte v) as (-> & -> & ->). now rewrite IH.
Qed.

Lemma length_EncodeToString : forall src,
  String.length (EncodeToString src) = 2 * List.length src.
Proof.
  induction src as [|v src IH]; [reflexivity|].
  cbn [EncodeToString String.length List.length]. rewrite IH. lia.
Qed.

Lemma fromHexChar_lt c a : fromHexChar c = Some a -> (a < 16)%N.
Proof.
  destruct c as [[] [] [] [] [] [] [] []]; vm_compute; intros H;
    try discriminate H; injection H as <-; reflexivity.
Qed.

Lemma fromHexChar_zero c : fromHexChar c = Some 0%N -> c = "0"%char.
Proof.
  destruct c as [[] [] [] [] [] [] [] []]; vm_compute; intros H;
    try discriminate H; reflexivity.
Qed.

Lemma byte_of_nibbles_zero a b :
  (a < 16)%N -> (b < 16)%N -> byte_of_nibbles a b = x00 -> a = 0%N /\ b = 0%N.
Proof.
  intros Ha Hb.
  assert (Ea : (a = 0 \/ a = 1 \/ a = 2 \/ a = 3 \/ a = 4 \/ a = 5 \/ a = 6 \/ a = 7 \/
               a = 8 \/ a = 9 \/ a = 10 \/ a = 11 \/ a = 12 \/ a = 13 \/ a = 14 \/
               a = 15)%N) by lia.
  assert (Eb : (b = 0 \/ b = 1 \/ b = 2 \/ b = 3 \/ b = 4 \/ b = 5 \/ b = 6 \/ b = 7 \/
               b = 8 \/ b = 9 \/ b = 10 \/ b = 11 \/ b = 12 \/ b = 13 \/ b = 14 \/
               b = 15)%N) by lia.
  repeat (destruct Ea as [->|Ea]); try subst a;
    repeat (destruct Eb as [->|Eb]); try subst b;
    vm_compute; intros H; try discriminate H; split; reflexivity.
Qed.

(** Only the numeral of [n] zero digit pairs decodes to [n] zero bytes. *)
Lemma DecodeString_zeros : forall n s,
  DecodeString s = (repeat x00 n, None) -> s = EncodeToString (repeat x00 n).
Proof.
  induction n as [|n IH]; intros s H.
  - destruct s as [|p [|q s]]; [reflexivity| |]; cbn [DecodeString] in H.
    + destruct (fromHexChar p); discriminate H.
    + destruct (fromHexChar p), (fromHexChar q); try discriminate H.
      destruct (DecodeString s). discriminate H.
  - destruct s as [|p [|q s]]; cbn [DecodeString] in H.
    + discriminate H.
    + destruct (fromHexChar p); discriminate H.
    + destruct (fromHexChar p) as [a|] eqn:Ep; [|discriminate H].
      destruct (fromHexChar q) as [b|] eqn:Eq; [|discriminate H].
      destruct (DecodeString s) as [dst err] eqn:Es.
      cbn [repeat] in H. injection H as Hb Hd He. subst dst err.
      destruct (byte_of_nibbles_zero a b (fromHexChar_lt _ _ Ep)
                  (fromHexChar_lt _ _ Eq) Hb) as [-> ->].
      apply fromHexChar_zero in Ep, Eq. subst p q.
      rewrite (IH s Es). reflexivity.
Qed.

End HexFacts.

(** ** [GetPayloads] *)

Section PayloadFacts.

Context `{FP : FabricProtos}.

(** X5.  [GetPayloads] returns both payloads and no error exactly when the
    action payload decodes, carries an action with a proposal response
    payload, both nested payloads decode, the response carries an extension,
    and the extension decodes. *)
Theorem GetPayloads_succeeds_iff :
  forall txActions ccProposalPayload respPayload,
    GetPayloads txActions = (Some ccProposalPayload, Some respPayload, None) <->
    exists ccPayload action prp pRespPayload extension,
      Unmarshal (T := peer.ChaincodeActionPayload) (peer.Payload txActions)
        = inl ccPayload /\
      peer.Action ccPayload = Some action /\
      peer.CEA_ProposalResponsePayload action = Some prp /\
      Unmarshal (T := peer.ChaincodeProposalPayload)
        (peer.CAP_ChaincodeProposalPayload ccPayload) = inl ccProposalPayload /\
      Unmarshal (T := peer.ProposalResponsePayload) prp = inl pRespPayload /\
      peer.Extension pRespPayload = Some extension /\
      Unmarshal (T := peer.ChaincodeAction) extension = inl respPayload.
Proof.
  intros a cpp rp. unfold GetPayloads. split.
  - intros H.
    destruct (Unmarshal (T := peer.ChaincodeActionPayload) (peer.Payload a))
      as [ccPayload|] eqn:E1; [|discriminate H].
    destruct (peer.Action ccPayload) as [action|] eqn:E2; [|discriminate H].
    destruct (peer.CEA_ProposalResponsePayload action) as [prp|] eqn:E3;
      [|discriminate H].
    destruct (Unmarshal (T := peer.ChaincodeProposalPayload) _) as [cpp'|] eqn:E4;
      [|discriminate H].
    destruct (Unmarshal (T := peer.ProposalResponsePayload) prp) as [pResp|] eqn:E5;
      [|discriminate H].
    destruct (peer.Extension pResp) as [ext|] eqn:E6; [|discriminate H].
    destruct (Unmarshal (T := peer.ChaincodeAction) ext) as [rp'|] eqn:E7;
      [|discriminate H].
    injection H as <- <-. exists ccPayload, action, prp, pResp, ext. auto 10.
  - intros (ccPayload & action & prp & pResp & ext & E1 & E2 & E3 & E4 & E5 & E6 & E7).
    now rewrite E1, E2, E3, E4, E5, E6, E7.
Qed.

(** X6.  [GetPayloads] never returns a response payload together with an
    error, and never an error-free result that lacks one of the payloads.
    With an error it returns the proposal payload only when the failure is
    that of decoding the extension. *)
Theorem GetPayloads_results txActions x y err :
  GetPayloads txActions = (x, y, err) ->
  (err = None ->
   exists ccProposalPayload respPayload,
     x = Some ccProposalPayload /\ y = Some respPayload) /\
  (forall e,
     err = Some e ->
     y = None /\
     (x = None \/
      exists pRespPayload extension,
        peer.Extension pRespPayload = Some extension /\
        Unmarshal (T := peer.ChaincodeAction) extension = inr e)).
Proof.
  unfold GetPayloads. intros H.
  repeat match type of H with
         | context [match ?e with _ => _ end] => destruct e eqn:?
         end;
  injection H as <- <- <-; (split; [intros H; try discriminate H; eauto|]);
  intros e' H; try discriminate H; injection H as <-; split; eauto.
Qed.

(** X7.  An action payload that does not decode gives the decoder's error;
    one that carries no action, or an action without proposal response
    payload, gives the error "no payload in ChaincodeActionPayload"; in both
    cases no payload is returned. *)
Theorem GetPayloads_without_payload txActions :
  (forall e,
     Unmarshal (T := peer.ChaincodeActionPayload) (peer.Payload txActions) = inr e ->
     GetPayloads txActions = (None, None, Some e)) /\
  (forall ccPayload,
     Unmarshal (T := peer.ChaincodeActionPayload) (peer.Payload txActions)
       = inl ccPayload ->
     peer.Action ccPayload = None \/
     (exists action, peer.Action ccPayload = Some action /\
                     peer.CEA_ProposalResponsePayload action = None) ->
     GetPayloads txActions
       = (None, None, Some "no payload in ChaincodeActionPayload")).
Proof.
  unfold GetPayloads. split.
  - intros e ->. reflexivity.
  - intros ccPayload -> [->|(action & -> & ->)]; reflexivity.
Qed.

End PayloadFacts.

Lemma GetPayloads_results_witness :
  (Some "response payload is missing extension" = None ->
   exists ccProposalPayload respPayload,
     @None peer.ChaincodeProposalPayload = Some ccProposalPayload /\
     @None peer.ChaincodeAction = Some respPayload) /\
  (forall e,
     Some "response payload is missing extension" = Some e ->
     @None peer.ChaincodeAction = None /\
     (@None peer.ChaincodeProposalPayload = None \/
      exists pRespPayload extension,
        peer.Extension pRespPayload = Some extension /\
        Unmarshal (Message := msg_ChaincodeAction (FabricProtos := Sample.protos))
          extension = inr e)).
Proof.
  apply (GetPayloads_results (FP := Sample.protos) (Sample.action_of x02)
           None None (Some "response payload is missing extension")).
  reflexivity.
Defined.

Lemma GetPayloads_without_payload_witness :
  GetPayloads (FP := Sample.protos_without_action) (Sample.action_of x05)
  = (None, None, Some "no payload in ChaincodeActionPayload").
Proof.
  apply (proj2 (GetPayloads_without_payload (FP := Sample.protos_without_action)
                  (Sample.action_of x05))
           {| peer.CAP_ChaincodeProposalPayload := [x05]; peer.Action := None |}).
  - reflexivity.
  - left. reflexivity.
Defined.

(** ** The service, continued *)

Section MoreServiceFacts.

Context {W C : Type}.
Context `{CC : apitxn.ChannelClient W C}.
Context `{FP : FabricProtos}.
Variable ToLower : string -> string.

Ltac run :=
  unfold GetCode, Call, SendTransaction, Accounts, GetTransactionReceipt,
    Query, chClient_Query, chClient_ExecuteTx, defer_Close, NewChannelClient,
    bind, ret, raise, log, adds_events; cbn beta iota.

Ltac run_in H :=
  unfold GetCode, Call, SendTransaction, Accounts, GetTransactionReceipt,
    Query, chClient_Query, chClient_ExecuteTx, defer_Close, NewChannelClient,
    bind, ret, raise, log, adds_events in H; cbn beta iota in H.

Ltac step H := rewrite H; cbn beta iota zeta; cbn [fst snd world trace].

Ltac step_in H := cbn beta iota zeta in H; cbn [fst snd world trace] in H.

Ltac close :=
  repeat match goal with
         | |- context [apitxn.Close ?c ?w] => destruct (apitxn.Close c w)
         end;
  cbn beta iota zeta; cbn [fst snd world trace].

Ltac split_match H :=
  match type of H with
  | context [match ?e with _ => _ end] =>
      let E := fresh "E" in destruct e eqn:E; try discriminate H
  end.

(** The acquisition of the client and the call to the ledger, taken apart
    in a hypothesis on an operation that holds its client by [defer]. *)
Ltac open_call H :=
  run_in H;
  match type of H with
  | context [sdk_NewChannelClient ?k ?ch ?u ?w] =>
      let Enew := fresh "Enew" in
      destruct (sdk_NewChannelClient k ch u w) as [[[?c|] [?e0|]] ?w1] eqn:Enew
  end; step_in H; try discriminate H;
  try (destruct (String.eqb (To _) "") eqn:?ETo in H);
  try match type of H with
      | context [apitxn.Query ?c ?q ?w] =>
          let Eq := fresh "Eq" in
          destruct (apitxn.Query c q w) as [[?value [?e|]] ?w2] eqn:Eq
      | context [apitxn.ExecuteTx ?c ?q ?w] =>
          let Eq := fresh "Eq" in
          destruct (apitxn.ExecuteTx c q w) as [[[?payload ?txID] [?e|]] ?w2] eqn:Eq
      end; step_in H;
  try match type of H with
      | context [apitxn.Close ?c ?w] => destruct (apitxn.Close c w)
      end.

(** X8.  When [GetTransactionReceipt] returns an error, [*reply] is as it
    was at the call: no receipt, whole or partial, comes with an error. *)
Theorem GetTransactionReceipt_error_keeps_reply req param reply s r e s' :
  GetTransactionReceipt req param reply s = (Returns (r, Some e), s') ->
  r = reply.
Proof.
  clear ToLower. intros H. run_in H.
  destruct (sdk_NewChannelClient (sdk req) channelID (user req) (world s))
    as [[[c|] e0] w1]; step_in H; [|discriminate H].
  destruct (apitxn.Query c _ w1) as [[t [e1|]] w2] in H; step_in H;
    [now injection H as <- _ _|].
  destruct (Unmarshal (T := peer.ProcessedTransaction) t);
    [|now injection H as <- _ _].
  step_in H.
  destruct (apitxn.Query c _ w2) as [[b [e2|]] w3] in H; step_in H;
    [now injection H as <- _ _|].
  repeat split_match H; now injection H as <- _ _.
Qed.

(** X9.  When [Call], [SendTransaction] or [Accounts] returns an error,
    [*reply] is as it was at the call. *)
Theorem errors_keep_reply req :
  (forall params reply s r e s',
     Call req params reply s = (Returns (r, Some e), s') -> r = reply) /\
  (forall params reply s r e s',
     SendTransaction req params reply s = (Returns (r, Some e), s') -> r = reply) /\
  (forall params reply s r e s',
     Accounts ToLower req params reply s = (Returns (r, Some e), s') -> r = reply).
Proof.
  repeat split; intros params reply s r e s' H; open_call H;
    try discriminate H; now injection H as <- _ _.
Qed.

(** X10.  [GetCode] never returns an error: it returns nil or it panics. *)
Theorem GetCode_never_returns_error req args reply s r err s' :
  GetCode req args reply s = (Returns (r, err), s') -> err = None.
Proof.
  clear ToLower. intros H. open_call H; try discriminate H;
    now injection H as _ <- _.
Qed.

(** X11.  [GetTransactionReceipt] only reads the ledger: with the client
    [c] it puts the query [GetTransactionByID] and, only when the answer
    came without error and decodes, the query [GetBlockByTxID], both to
    [qscc] with the channel and the identifier as arguments; it puts no
    invocation and no other query. *)
Theorem GetTransactionReceipt_only_queries req param reply s c e0 w1 r s' :
  sdk_NewChannelClient (sdk req) channelID (user req) (world s) = ((Some c, e0), w1) ->
  GetTransactionReceipt req param reply s = (r, s') ->
  adds_events s s'
    [EvNewChannelClient channelID (user req) (Some c) e0;
     EvQuery c (request_GetTransactionByID param)] \/
  (adds_events s s'
     [EvNewChannelClient channelID (user req) (Some c) e0;
      EvQuery c (request_GetTransactionByID param);
      EvQuery c (request_GetBlockByTxID param)] /\
   exists t w2 tx,
     apitxn.Query c (request_GetTransactionByID param) w1 = ((t, None), w2) /\
     Unmarshal (T := peer.ProcessedTransaction) t = inl tx).
Proof.
  clear ToLower. intros Hnew H. run_in H. rewrite Hnew in H. step_in H.
  unfold request_GetTransactionByID, request_GetBlockByTxID.
  destruct (apitxn.Query c _ w1) as [[t [e1|]] w2] eqn:E1 in H; step_in H;
    [left; injection H as _ <-; unfold adds_events; cbn [trace];
     now rewrite <- !app_assoc|].
  destruct (Unmarshal (T := peer.ProcessedTransaction) t) as [tx|] eqn:D1;
    [|left; injection H as _ <-; unfold adds_events; cbn [trace];
      now rewrite <- !app_assoc].
  step_in H.
  destruct (apitxn.Query c _ w2) as [[b err2] w3] in H; step_in H.
  right. split; [|exists t, w2, tx; auto].
  repeat split_match H; injection H as _ <-; unfold adds_events; cbn [trace];
    now rewrite <- !app_assoc.
Qed.

(** X12.  When both queries are answered, the block decodes, the hash of
    its header is computed, and the transaction decodes down to a first
    argument that is a hexadecimal numeral, [GetTransactionReceipt] returns
    the receipt and no error. *)
Theorem GetTransactionReceipt_complete req param reply s c t b blkHeader hash
    callee respPayload :
  ledger_answers req param (world s) c t b ->
  decodes_to_header b blkHeader ->
  BlockHeader_Hash blkHeader = Some hash ->
  decodes_to_call t callee respPayload ->
  exists s',
    GetTransactionReceipt req param reply s =
    (Returns
       ({| TransactionHash := param;
           BlockHash := GoHex.EncodeToString hash;
           BlockNumber := FormatUint10 (common.BlockHeader_GetNumber blkHeader);
           ContractAddress :=
             if bytes_Equal callee zeroAddress then
               string_of_list_byte
                 (peer.Response_GetPayload (peer.GetResponse (Some respPayload)))
             else EmptyString;
           GasUsed := 0;
           CumulativeGasUsed := 0 |}, None), s').
Proof.
  clear ToLower.
  intros Hl Hb Hh (actions & action0 & args & arg0 & Ha & H0 & Hi & Harg & Hhex).
  destruct Hi as (ccPropPayload & invokeSpec & input & Hp & Hinv & Hin & Hargs).
  destruct (GetTransactionReceipt_reaches_actions req param reply s c t b
              blkHeader actions Hl Hb Ha) as [s1 H].
  exists s1. rewrite H, H0, Hp, Hinv, Hh, Hin, Hargs, Harg, Hhex. reflexivity.
Qed.

(** X13.  A [Call] whose query is answered without error returns "0x" and
    the hexadecimal numeral of the answer, and has done three things on the
    ledger: acquire the client, put the one query to [evmscc] with the
    stripped [To] as function and the stripped [Data] as only argument, and
    release the client. *)
Theorem Call_succeeds req params reply s c w1 value w2 :
  sdk_NewChannelClient (sdk req) channelID (user req) (world s) = ((Some c, None), w1) ->
  apitxn.Query c
    {| apitxn.ChaincodeID := "evmscc";
       apitxn.Fcn := Strip0xFromHex (To params);
       apitxn.Args := [list_byte_of_string (Strip0xFromHex (Data params))] |} w1
    = ((value, None), w2) ->
  exists s',
    Call req params reply s
      = (Returns (("0x" ++ GoHex.EncodeToString value)%string, None), s') /\
    adds_events s s'
      [EvNewChannelClient channelID (user req) (Some c) None;
       EvQuery c
         {| apitxn.ChaincodeID := "evmscc";
            apitxn.Fcn := Strip0xFromHex (To params);
            apitxn.Args := [list_byte_of_string (Strip0xFromHex (Data params))] |};
       EvClose c].
Proof.
  clear ToLower. intros H1 H2. run. step H1. step H2. close.
  eexists. split; [reflexivity|]. cbn [trace]. now rewrite <- !app_assoc.
Qed.

(** X14.  With a [To] that is not empty, [SendTransaction] invokes [evmscc]
    with the stripped [To] as function and the stripped [Data] as only
    argument; when the invocation is accepted the identifier it returns is
    the result, and the client is released after this one invocation. *)
Theorem SendTransaction_to_address req params reply s c w1 payload txID w2 :
  To params <> EmptyString ->
  sdk_NewChannelClient (sdk req) channelID (user req) (world s) = ((Some c, None), w1) ->
  apitxn.ExecuteTx c
    {| apitxn.Tx_ChaincodeID := "evmscc";
       apitxn.Tx_Fcn := Strip0xFromHex (To params);
       apitxn.Tx_Args := [list_byte_of_string (Strip0xFromHex (Data params))] |} w1
    = ((payload, txID, None), w2) ->
  exists s',
    SendTransaction req params reply s = (Returns (apitxn.ID txID, None), s') /\
    adds_events s s'
      [EvNewChannelClient channelID (user req) (Some c) None;
       EvExecuteTx c
         {| apitxn.Tx_ChaincodeID := "evmscc";
            apitxn.Tx_Fcn := Strip0xFromHex (To params);
            apitxn.Tx_Args := [list_byte_of_string (Strip0xFromHex (Data params))] |};
       EvClose c].
Proof.
  clear ToLower. intros HTo H1 H2. run. step H1.
  destruct (String.eqb (To params) "") eqn:E;
    [apply String.eqb_eq in E; contradiction|].
  step H2. close.
  eexists. split; [reflexivity|]. cbn [trace]. now rewrite <- !app_assoc.
Qed.

(** X15.  The result of an [Accounts] that returns without error is a list
    of exactly one string: "0x" and the lower-cased answer of the query
    [account], which is put to [evmscc] without argument. *)
Theorem Accounts_returns_one_account req params reply s r s' :
  Accounts ToLower req params reply s = (Returns (r, None), s') ->
  exists c w1 value w2,
    sdk_NewChannelClient (sdk req) channelID (user req) (world s)
      = ((Some c, None), w1) /\
    apitxn.Query c
      {| apitxn.ChaincodeID := "evmscc"; apitxn.Fcn := "account"; apitxn.Args := [] |}
      w1 = ((value, None), w2) /\
    r = [("0x" ++ ToLower (string_of_list_byte value))%string] /\
    List.length r = 1.
Proof.
  intros H. open_call H; try discriminate H.
  injection H as <- _. eexists _, _, _, _. repeat split; eauto.
Qed.

(** X16.  The block fields of a returned receipt read back: [BlockHash] is
    a numeral of two digits per byte that [hex.DecodeString] decodes to the
    hash of the block header, and [BlockNumber] is a decimal numeral of the
    height of the block header. *)
Theorem receipt_block_fields_read_back req param reply s r s' :
  GetTransactionReceipt req param reply s = (Returns (r, None), s') ->
  exists c t b blkHeader hash,
    ledger_answers req param (world s) c t b /\
    decodes_to_header b blkHeader /\
    BlockHeader_Hash blkHeader = Some hash /\
    GoHex.DecodeString (BlockHash r) = (hash, None) /\
    String.length (BlockHash r) = 2 * List.length hash /\
    option_map N.of_uint (NilEmpty.uint_of_string (BlockNumber r))
      = Some (common.BlockHeader_GetNumber blkHeader).
Proof.
  clear ToLower. intros H. apply GetTransactionReceipt_ok_inv in H.
  destruct H as (c & t & b & blkHeader & hash & callee & respPayload
                 & Hl & Hb & Hh & _ & ->).
  exists c, t, b, blkHeader, hash. cbn [BlockHash BlockNumber].
  repeat split; try assumption.
  - apply HexFacts.DecodeString_EncodeToString.
  - apply HexFacts.length_EncodeToString.
  - apply FormatUint10_reads_back.
Qed.

(** X17.  A returned receipt carries a contract address only when the
    first argument of the invocation is the 40 zero digits, and nothing
    else: no "0x" in front, no other length. *)
Theorem ContractAddress_only_for_zero_numeral req param reply s r s' :
  GetTransactionReceipt req param reply s = (Returns (r, None), s') ->
  ContractAddress r <> EmptyString ->
  exists c t b actions action0 respPayload args arg0,
    ledger_answers req param (world s) c t b /\
    decodes_to_actions t actions /\
    nth_error actions 0 = Some action0 /\
    decodes_to_invocation action0 respPayload args /\
    nth_error args 0 = Some arg0 /\
    string_of_list_byte arg0 = zero_address_hex.
Proof.
  clear ToLower. intros H Hca. apply GetTransactionReceipt_ok_inv in H.
  destruct H as (c & t & b & blkHeader & hash & callee & respPayload
                 & Hl & _ & _ & Hc & ->).
  destruct Hc as (actions & action0 & args & arg0 & Ha & H0 & Hi & Harg & Hhex).
  exists c, t, b, actions, action0, respPayload, args, arg0.
  repeat split; try assumption.
  cbn [ContractAddress] in Hca.
  destruct (bytes_Equal callee zeroAddress) eqn:E; [|congruence].
  apply bytes_Equal_eq in E. subst callee.
  apply (HexFacts.DecodeString_zeros 20) in Hhex. exact Hhex.
Qed.

(** X18.  A "0x" in front of the address of [GetCode], or of the [To] and
    the [Data] of [Call], changes nothing of what the operation does. *)
Theorem prefix_0x_makes_no_difference req :
  (forall (address reply : string) s,
     GetCode req ("0x" ++ address)%string reply s = GetCode req address reply s) /\
  (forall (from to gas gasPrice value data nonce reply : string) s,
     Call req
       {| From := from; To := ("0x" ++ to)%string; Gas := gas; GasPrice := gasPrice;
          Value := value; Data := ("0x" ++ data)%string; Nonce := nonce |} reply s
     = Call req
         {| From := from; To := to; Gas := gas; GasPrice := gasPrice;
            Value := value; Data := data; Nonce := nonce |} reply s).
Proof.
  clear ToLower.
  assert (Hs : forall p, Strip0xFromHex ("0x" ++ p) = Strip0xFromHex p)
    by (intros p; apply (StripFacts.Strip0xFromHex_drops_prefix EmptyString p)).
  split; intros; unfold GetCode, Call; cbn [To Data]; now rewrite !Hs.
Qed.

(** X20.  [GetCode] puts exactly one query to the ledger, [getCode] of
    [evmscc] with the stripped address as only argument, and releases its
    client; whatever the answer, error or not, the bytes of the answer are
    the result and the returned error is nil. *)
Theorem GetCode_queries_once req args reply s c w1 value qerr w2 :
  sdk_NewChannelClient (sdk req) channelID (user req) (world s) = ((Some c, None), w1) ->
  apitxn.Query c
    {| apitxn.ChaincodeID := "evmscc";
       apitxn.Fcn := "getCode";
       apitxn.Args := [list_byte_of_string (Strip0xFromHex args)] |} w1
    = ((value, qerr), w2) ->
  exists s',
    GetCode req args reply s = (Returns (string_of_list_byte value, None), s') /\
    adds_events s s'
      [EvNewChannelClient channelID (user req) (Some c) None;
       EvQuery c
         {| apitxn.ChaincodeID := "evmscc";
            apitxn.Fcn := "getCode";
            apitxn.Args := [list_byte_of_string (Strip0xFromHex args)] |};
       EvClose c].
Proof.
  clear ToLower. intros H1 H2. run. step H1. step H2. close.
  eexists. split; [reflexivity|]. cbn [trace]. now rewrite <- !app_assoc.
Qed.

(** X21.  When no channel client can be had, [Call] and [SendTransaction]
    return that error and have done nothing else on the ledger: no query,
    no invocation, no release. *)
Theorem connection_error_ends_the_call req s oc e w1 :
  sdk_NewChannelClient (sdk req) channelID (user req) (world s) = ((oc, Some e), w1) ->
  (forall params reply,
     Call req params reply s
     = (Returns (reply, Some e),
        {| world := w1;
           trace := trace s ++ [EvNewChannelClient channelID (user req) oc (Some e)] |})) /\
  (forall params reply,
     SendTransaction req params reply s
     = (Returns (reply, Some e),
        {| world := w1;
           trace := trace s ++ [EvNewChannelClient channelID (user req) oc (Some e)] |})).
Proof.
  clear ToLower. intros H. split; intros; run; step H; reflexivity.
Qed.

End MoreServiceFacts.

(** ** The further properties on the small ledger *)

Lemma GetTransactionReceipt_error_keeps_reply_witness :
  Sample.receipt_of x02
  = (Returns (Sample.no_receipt, Some "response payload is missing extension"),
     snd (Sample.receipt_of x02)) /\
  Sample.no_receipt = Sample.no_receipt.
Proof.
  assert (H : Sample.receipt_of x02
              = (Returns (Sample.no_receipt,
                          Some "response payload is missing extension"),
                 snd (Sample.receipt_of x02)))
    by (vm_compute; reflexivity).
  split; [exact H|].
  exact (GetTransactionReceipt_error_keeps_reply (CC := Sample.client)
           (FP := Sample.protos) Sample.service "abc" Sample.no_receipt
           (Sample.holding x02) Sample.no_receipt
           "response payload is missing extension"
           (snd (Sample.receipt_of x02)) H).
Defined.

Lemma GetCode_never_returns_error_witness : @None error = None.
Proof.
  apply (GetCode_never_returns_error (CC := Sample.client) Sample.service "0xabc" ""
           Sample.refusing "stale" None
           (snd (GetCode (CC := Sample.client) Sample.service "0xabc" ""
                   Sample.refusing))).
  vm_compute. reflexivity.
Defined.

Lemma GetTransactionReceipt_only_queries_witness :
  adds_events (Sample.holding x04) (snd (Sample.receipt_of x04))
    [EvNewChannelClient channelID "User1" (Some 1) None;
     EvQuery 1 (request_GetTransactionByID "abc")] \/
  (adds_events (Sample.holding x04) (snd (Sample.receipt_of x04))
     [EvNewChannelClient channelID "User1" (Some 1) None;
      EvQuery 1 (request_GetTransactionByID "abc");
      EvQuery 1 (request_GetBlockByTxID "abc")] /\
   exists t w2 tx,
     apitxn.Query (ChannelClient := Sample.client) 1
       (request_GetTransactionByID "abc")
       (Sample.tick (world (Sample.holding x04))) = ((t, None), w2) /\
     Unmarshal
       (Message := msg_ProcessedTransaction (FabricProtos := Sample.protos)) t
       = inl tx).
Proof.
  apply (GetTransactionReceipt_only_queries (CC := Sample.client)
           (FP := Sample.protos) Sample.service "abc" Sample.no_receipt
           (Sample.holding x04) 1 None (Sample.tick (world (Sample.holding x04)))
           (fst (Sample.receipt_of x04)) (snd (Sample.receipt_of x04))).
  - reflexivity.
  - vm_compute. reflexivity.
Defined.

Lemma Sample_decodes_to_call :
  decodes_to_call (FP := Sample.protos) [x04] zeroAddress Sample.response.
Proof.
  exists [Sample.action_of x04], (Sample.action_of x04),
    [list_byte_of_string zero_address_hex], (list_byte_of_string zero_address_hex).
  repeat split.
  - do 3 eexists. repeat split; reflexivity.
  - do 3 eexists. repeat split; reflexivity.
Defined.

Lemma GetTransactionReceipt_complete_witness :
  exists s',
    Sample.receipt_of x04
    = (Returns (Sample.receipt7 (string_of_list_byte Sample.created), None), s').
Proof.
  exact (GetTransactionReceipt_complete (CC := Sample.client)
           (FP := Sample.protos) Sample.service "abc" Sample.no_receipt
           (Sample.holding x04) 1 [x04] [x07] (Some Sample.header7)
           [xde; xad; x00] zeroAddress Sample.response
           (Sample_ledger_answers x04) Sample_decodes_to_header eq_refl
           Sample_decodes_to_call).
Defined.

Lemma Call_succeeds_witness :
  exists s',
    Call (CC := Sample.client) Sample.service (Sample.params_to "0x12") ""
      (Sample.holding x05) = (Returns ("0x6162", None), s') /\
    adds_events (Sample.holding x05) s'
      [EvNewChannelClient channelID "User1" (Some 1) None;
       EvQuery 1
         {| apitxn.ChaincodeID := "evmscc";
            apitxn.Fcn := "12";
            apitxn.Args := [list_byte_of_string "6060"] |};
       EvClose 1].
Proof.
  eapply (Call_succeeds (CC := Sample.client) Sample.service
            (Sample.params_to "0x12") "" (Sample.holding x05) 1 _
            (list_byte_of_string "ab") _);
    reflexivity.
Defined.

Lemma SendTransaction_to_address_witness :
  exists s',
    SendTransaction (CC := Sample.client) Sample.service (Sample.params_to "0x12") ""
      (Sample.holding x05) = (Returns ("tx-1", None), s') /\
    adds_events (Sample.holding x05) s'
      [EvNewChannelClient channelID "User1" (Some 1) None;
       EvExecuteTx 1
         {| apitxn.Tx_ChaincodeID := "evmscc";
            apitxn.Tx_Fcn := "12";
            apitxn.Tx_Args := [list_byte_of_string "6060"] |};
       EvClose 1].
Proof.
  eapply (SendTransaction_to_address (CC := Sample.client) Sample.service
            (Sample.params_to "0x12") "" (Sample.holding x05) 1 _ []
            {| apitxn.ID := "tx-1" |} _);
    [discriminate | reflexivity | reflexivity].
Defined.

Lemma Accounts_returns_one_account_witness :
  exists c w1 value w2,
    sdk_NewChannelClient (sdk Sample.service) channelID (user Sample.service)
      (world (Sample.holding x05)) = ((Some c, None), w1) /\
    apitxn.Query (ChannelClient := Sample.client) c
      {| apitxn.ChaincodeID := "evmscc"; apitxn.Fcn := "account"; apitxn.Args := [] |}
      w1 = ((value, None), w2) /\
    ["0xab"] = [("0x" ++ Sample.ToLower (string_of_list_byte value))%string] /\
    List.length ["0xab"] = 1.
Proof.
  apply (Accounts_returns_one_account (CC := Sample.client) Sample.ToLower
           Sample.service "" [] (Sample.holding x05) ["0xab"]
           (snd (Accounts (CC := Sample.client) Sample.ToLower Sample.service ""
                   [] (Sample.holding x05)))).
  vm_compute. reflexivity.
Defined.

Lemma receipt_block_fields_read_back_witness :
  exists c t b blkHeader hash,
    ledger_answers (CC := Sample.client) Sample.service "abc"
      (world (Sample.holding x05)) c t b /\
    decodes_to_header (FP := Sample.protos) b blkHeader /\
    BlockHeader_Hash (FabricProtos := Sample.protos) blkHeader = Some hash /\
    GoHex.DecodeString (BlockHash (Sample.receipt7 "")) = (hash, None) /\
    String.length (BlockHash (Sample.receipt7 "")) = 2 * List.length hash /\
    option_map N.of_uint (NilEmpty.uint_of_string (BlockNumber (Sample.receipt7 "")))
      = Some (common.BlockHeader_GetNumber blkHeader).
Proof.
  apply (receipt_block_fields_read_back (CC := Sample.client)
           (FP := Sample.protos) Sample.service "abc" Sample.no_receipt
           (Sample.holding x05) (Sample.receipt7 "")
           (snd (Sample.receipt_of x05))).
  vm_compute. reflexivity.
Defined.

Lemma ContractAddress_only_for_zero_numeral_witness :
  exists c t b actions action0 respPayload args arg0,
    ledger_answers (CC := Sample.client) Sample.service "abc"
      (world (Sample.holding x04)) c t b /\
    decodes_to_actions (FP := Sample.protos) t actions /\
    nth_error actions 0 = Some action0 /\
    decodes_to_invocation (FP := Sample.protos) action0 respPayload args /\
    nth_error args 0 = Some arg0 /\
    string_of_list_byte arg0 = zero_address_hex.
Proof.
  apply (ContractAddress_only_for_zero_numeral (CC := Sample.client)
           (FP := Sample.protos) Sample.service "abc" Sample.no_receipt
           (Sample.holding x04)
           (Sample.receipt7 (string_of_list_byte Sample.created))
           (snd (Sample.receipt_of x04))).
  - vm_compute. reflexivity.
  - discriminate.
Defined.

Lemma GetCode_queries_once_witness :
  exists s',
    GetCode (CC := Sample.client) Sample.service "0xabc" "" Sample.refusing
      = (Returns ("stale", None), s') /\
    adds_events Sample.refusing s'
      [EvNewChannelClient channelID "User1" (Some 1) None;
       EvQuery 1
         {| apitxn.ChaincodeID := "evmscc";
            apitxn.Fcn := "getCode";
            apitxn.Args := [list_byte_of_string "abc"] |};
       EvClose 1].
Proof.
  eapply (GetCode_queries_once (CC := Sample.client) Sample.service "0xabc" ""
            Sample.refusing 1 _ (list_byte_of_string "stale")
            (Some "query refused") _);
    reflexivity.
Defined.

Lemma connection_error_ends_the_call_witness :
  (forall params reply,
     Call (CC := Sample.client) Sample.service params reply Sample.unreachable
     = (Returns (reply, Some "no channel"),
        {| world := Sample.tick (world Sample.unreachable);
           trace := [EvNewChannelClient channelID "User1" None (Some "no channel")] |})) /\
  (forall params reply,
     SendTransaction (CC := Sample.client) Sample.service params reply
       Sample.unreachable
     = (Returns (reply, Some "no channel"),
        {| world := Sample.tick (world Sample.unreachable);
           trace := [EvNewChannelClient channelID "User1" None (Some "no channel")] |})).
Proof.
  apply (connection_error_ends_the_call (CC := Sample.client) Sample.service
           Sample.unreachable None "no channel"
           (Sample.tick (world Sample.unreachable))).
  reflexivity.
Defined.
